(** * Rich-text rendering of an article page ([src/pages/[category]/[path].tsx])

    A shallow embedding of the [renderNode] table of the [Article] component:
    the per-node-type handlers that turn a Contentful rich-text document into
    React nodes, the MD5 anchor they attach to headings, the category lookup
    of embedded entries and the regular expression that tells a video link
    from an ordinary one. *)

From Stdlib Require Import NArith ZArith String Ascii List Bool Lia.
From stdpp Require Import base option list gmap strings.

#[local] Set Warnings "-register-all".

Local Open Scope string_scope.
Local Open Scope list_scope.
Local Open Scope N_scope.

(** ** JavaScript strings

    A JavaScript string is a sequence of UTF-16 code units.  [String.match]
    works on code units and [Hash.update] hashes the UTF-8 encoding, so the
    code units are kept as numbers. *)

Module JS.

Abbreviation jsstring := (list N).

(** The code units of an ASCII literal of the source text. *)
Definition js (s : string) : jsstring :=
  map N_of_ascii (list_ascii_of_string s).

(** JavaScript values as far as the handlers look at them.  Numbers are the
    integers of the document (image dimensions); an object is the list of its
    own properties. *)
Inductive jsvalue : Type :=
| VUndefined
| VNull
| VBool (b : bool)
| VNum (z : Z)
| VStr (s : jsstring)
| VObj (props : list (string * jsvalue)).

Inductive exn : Type :=
| TypeError
| RangeError.

(** The result of evaluating an expression: a value, or a thrown exception. *)
Inductive outcome (A : Type) : Type :=
| Ok (a : A)
| Throw (e : exn).
Arguments Ok {A} a.
Arguments Throw {A} e.

#[export] Instance outcome_ret : MRet outcome := fun A a => Ok a.

#[export] Instance outcome_bind : MBind outcome := fun A B f x =>
  match x with
  | Ok a => f a
  | Throw e => Throw e
  end.

(** Own property of an object literal. *)
Fixpoint assoc (k : string) (props : list (string * jsvalue)) : option jsvalue :=
  match props with
  | [] => None
  | (k', v) :: rest => if String.eqb k k' then Some v else assoc k rest
  end.

(** [o.k]: a [TypeError] on [undefined] and [null], the property of an
    object, [undefined] where there is none.  None of the names the handlers
    read is a property of [Object.prototype] or of a primitive's wrapper. *)
Definition get (o : jsvalue) (k : string) : outcome jsvalue :=
  match o with
  | VUndefined | VNull => Throw TypeError
  | VObj props => Ok (default VUndefined (assoc k props))
  | _ => Ok VUndefined
  end.

(** [o.k1.k2...] *)
Definition get_path (o : jsvalue) (ks : list string) : outcome jsvalue :=
  foldl (fun acc k => v ← acc; get v k) (Ok o) ks.

(** [a ?? b] *)
Definition nullish (a b : jsvalue) : jsvalue :=
  match a with
  | VUndefined | VNull => b
  | _ => a
  end.

(** [a !== b] where [b] is a string literal. *)
Definition strict_neq_str (a : jsvalue) (b : jsstring) : bool :=
  match a with
  | VStr s => negb (bool_decide (s = b))
  | _ => true
  end.

Definition digit (n : N) : N := 48 + n.

(** Decimal digits of a positive number, most significant first. *)
Fixpoint digits_fuel (fuel : nat) (n : N) (acc : jsstring) : jsstring :=
  match fuel with
  | O => acc
  | S fuel' =>
      let acc' := digit (n mod 10) :: acc in
      if n / 10 =? 0 then acc' else digits_fuel fuel' (n / 10) acc'
  end.

Definition N_to_string (n : N) : jsstring :=
  digits_fuel (S (N.to_nat (N.log2 n))) n [].

(** [String(v)], as a template literal applies it to a substitution, for
    the values that the fields read here hold: strings, [undefined], [null],
    booleans, integers up to [2^53], and objects that have no [toString] or
    [valueOf] of their own. *)
Definition to_string (v : jsvalue) : jsstring :=
  match v with
  | VUndefined => js "undefined"
  | VNull => js "null"
  | VBool true => js "true"
  | VBool false => js "false"
  | VNum (Zneg p) => 45 :: N_to_string (Npos p)
  | VNum z => N_to_string (Z.to_N z)
  | VStr s => s
  | VObj _ => js "[object Object]"
  end.

End JS.
Export JS.

(** ** UTF-8 and MD5: [createHash('md5').update(s).digest('hex')] *)

Module Utf8.

Definition replacement : list N := [0xEF; 0xBF; 0xBD].

Definition is_high (c : N) : bool := (0xD800 <=? c) && (c <=? 0xDBFF).
Definition is_low (c : N) : bool := (0xDC00 <=? c) && (c <=? 0xDFFF).

Definition enc2 (c : N) : list N :=
  [N.lor 0xC0 (N.shiftr c 6); N.lor 0x80 (N.land c 0x3F)].

Definition enc3 (c : N) : list N :=
  [N.lor 0xE0 (N.shiftr c 12);
   N.lor 0x80 (N.land (N.shiftr c 6) 0x3F);
   N.lor 0x80 (N.land c 0x3F)].

Definition enc4 (c : N) : list N :=
  [N.lor 0xF0 (N.shiftr c 18);
   N.lor 0x80 (N.land (N.shiftr c 12) 0x3F);
   N.lor 0x80 (N.land (N.shiftr c 6) 0x3F);
   N.lor 0x80 (N.land c 0x3F)].

(** The bytes Node hashes for a string: a surrogate pair is one four-byte
    sequence, a surrogate on its own is replaced by U+FFFD. *)
Fixpoint encode (s : jsstring) : list N :=
  match s with
  | [] => []
  | c :: t =>
      if c <? 0x80 then c :: encode t
      else if c <? 0x800 then enc2 c ++ encode t
      else if is_high c then
        match t with
        | d :: t' =>
            if is_low d
            then enc4 (0x10000 + N.shiftl (c - 0xD800) 10 + (d - 0xDC00))
                   ++ encode t'
            else replacement ++ encode t
        | [] => replacement
        end
      else if is_low c then replacement ++ encode t
      else enc3 c ++ encode t
  end.

End Utf8.

Module MD5.

Definition add32 (a b : N) : N := (a + b) mod 2 ^ 32.
Definition not32 (a : N) : N := N.lxor (a mod 2 ^ 32) 0xFFFFFFFF.
Definition rotl32 (x s : N) : N :=
  N.lor (N.shiftl x s mod 2 ^ 32) (N.shiftr x (32 - s)).

Definition K : list N :=
  [ 0xd76aa478; 0xe8c7b756; 0x242070db; 0xc1bdceee;
    0xf57c0faf; 0x4787c62a; 0xa8304613; 0xfd469501;
    0x698098d8; 0x8b44f7af; 0xffff5bb1; 0x895cd7be;
    0x6b901122; 0xfd987193; 0xa679438e; 0x49b40821;
    0xf61e2562; 0xc040b340; 0x265e5a51; 0xe9b6c7aa;
    0xd62f105d; 0x02441453; 0xd8a1e681; 0xe7d3fbc8;
    0x21e1cde6; 0xc33707d6; 0xf4d50d87; 0x455a14ed;
    0xa9e3e905; 0xfcefa3f8; 0x676f02d9; 0x8d2a4c8a;
    0xfffa3942; 0x8771f681; 0x6d9d6122; 0xfde5380c;
    0xa4beea44; 0x4bdecfa9; 0xf6bb4b60; 0xbebfbc70;
    0x289b7ec6; 0xeaa127fa; 0xd4ef3085; 0x04881d05;
    0xd9d4d039; 0xe6db99e5; 0x1fa27cf8; 0xc4ac5665;
    0xf4292244; 0x432aff97; 0xab9423a7; 0xfc93a039;
    0x655b59c3; 0x8f0ccc92; 0xffeff47d; 0x85845dd1;
    0x6fa87e4f; 0xfe2ce6e0; 0xa3014314; 0x4e0811a1;
    0xf7537e82; 0xbd3af235; 0x2ad7d2bb; 0xeb86d391 ].

Definition shifts : list N :=
  [ 7; 12; 17; 22; 7; 12; 17; 22; 7; 12; 17; 22; 7; 12; 17; 22;
    5; 9; 14; 20; 5; 9; 14; 20; 5; 9; 14; 20; 5; 9; 14; 20;
    4; 11; 16; 23; 4; 11; 16; 23; 4; 11; 16; 23; 4; 11; 16; 23;
    6; 10; 15; 21; 6; 10; 15; 21; 6; 10; 15; 21; 6; 10; 15; 21 ].

Record regs : Type := Regs { rA : N; rB : N; rC : N; rD : N }.

Definition init : regs :=
  Regs 0x67452301 0xefcdab89 0x98badcfe 0x10325476.

(** The round function and the message word of operation [i]. *)
Definition mix (i : nat) (b c d : N) : N * nat :=
  if (i <? 16)%nat then
    (N.lor (N.land b c) (N.land (not32 b) d), i)
  else if (i <? 32)%nat then
    (N.lor (N.land d b) (N.land (not32 d) c), ((5 * i + 1) mod 16)%nat)
  else if (i <? 48)%nat then
    (N.lxor b (N.lxor c d), ((3 * i + 5) mod 16)%nat)
  else
    (N.lxor c (N.lor b (not32 d)), ((7 * i) mod 16)%nat).

Definition step (M : list N) (r : regs) (i : nat) : regs :=
  let '(f, g) := mix i (rB r) (rC r) (rD r) in
  let f' := add32 (add32 (add32 f (rA r)) (nth i K 0)) (nth g M 0) in
  Regs (rD r) (add32 (rB r) (rotl32 f' (nth i shifts 0))) (rB r) (rC r).

Definition le_word (bs : list N) : N :=
  nth 0 bs 0 + N.shiftl (nth 1 bs 0) 8 + N.shiftl (nth 2 bs 0) 16
  + N.shiftl (nth 3 bs 0) 24.

(** Cut a list into pieces of [n] elements; [fuel] bounds their number. *)
Fixpoint chunks {A} (fuel n : nat) (l : list A) : list (list A) :=
  match fuel, l with
  | O, _ | _, [] => []
  | S fuel', _ => take n l :: chunks fuel' n (drop n l)
  end.

Definition words (block : list N) : list N :=
  map le_word (chunks 16 4 block).

Definition compress (r : regs) (block : list N) : regs :=
  let r' := fold_left (step (words block)) (seq 0 64) r in
  Regs (add32 (rA r) (rA r')) (add32 (rB r) (rB r'))
       (add32 (rC r) (rC r')) (add32 (rD r) (rD r')).

Definition le_bytes (n : nat) (x : N) : list N :=
  map (fun i => N.shiftr x (8 * N.of_nat i) mod 256) (seq 0 n).

(** RFC 1321 padding: a one bit, zeros up to 56 modulo 64, the bit length. *)
Definition pad (msg : list N) : list N :=
  let len := N.of_nat (length msg) in
  let zeros := N.to_nat ((119 - len mod 64) mod 64) in
  msg ++ [0x80] ++ repeat 0 zeros ++ le_bytes 8 ((8 * len) mod 2 ^ 64).

Definition digest (msg : list N) : list N :=
  let p := pad msg in
  let r := fold_left compress (chunks (length p) 64 p) init in
  le_bytes 4 (rA r) ++ le_bytes 4 (rB r) ++ le_bytes 4 (rC r)
    ++ le_bytes 4 (rD r).

Definition hex_digit (n : N) : N := if n <? 10 then 48 + n else 87 + n.

Definition hex (bytes : list N) : jsstring :=
  flat_map (fun b => [hex_digit (b / 16); hex_digit (b mod 16)]) bytes.

End MD5.

(** [createHash('md5').update(value).digest('hex')] *)
Definition anchor (value : jsstring) : jsstring :=
  MD5.hex (MD5.digest (Utf8.encode value)).


(** ** The regular expression of the hyperlink handler

    [/\/youtu.be\/(.+)$/] is a sequence of atoms without alternation: literal
    characters, the wildcard [.], one capturing group [(.+)] and the end
    assertion [$].  [String.prototype.match] tries every start position from
    the left and, at each, matches the atoms with the greedy quantifier
    backtracking from its longest run. *)

Module RegExp.

Inductive atom : Type :=
| Char (c : N)
| AnyChar
| CaptureAnyPlus
| EndOfInput.

(** Without the [s] flag [.] matches every code unit but a line terminator. *)
Definition is_line_terminator (c : N) : bool :=
  (c =? 0x0A) || (c =? 0x0D) || (c =? 0x2028) || (c =? 0x2029).

Definition dot (c : N) : bool := negb (is_line_terminator c).

(** The length of the longest prefix [.] matches throughout. *)
Fixpoint run (s : jsstring) : nat :=
  match s with
  | c :: t => if dot c then S (run t) else O
  | [] => O
  end.

(** Greedy [(.+)]: the longest run first, then shorter ones, never empty. *)
Fixpoint longest_first {R} (k : jsstring -> jsstring -> option R)
    (s : jsstring) (n : nat) : option R :=
  match n with
  | O => None
  | S n' =>
      match k (drop n s) (take n s) with
      | Some r => Some r
      | None => longest_first k s n'
      end
  end.

(** Match the atoms at the front of [s]; the result is the rest of the input
    and what the group captured. *)
Fixpoint match_here (p : list atom) (s : jsstring) (cap : jsvalue)
    : option (jsstring * jsvalue) :=
  match p with
  | [] => Some (s, cap)
  | Char c :: p' =>
      match s with
      | x :: s' => if x =? c then match_here p' s' cap else None
      | [] => None
      end
  | AnyChar :: p' =>
      match s with
      | x :: s' => if dot x then match_here p' s' cap else None
      | [] => None
      end
  | CaptureAnyPlus :: p' =>
      longest_first (fun rest g => match_here p' rest (VStr g)) s (run s)
  | EndOfInput :: p' =>
      match s with
      | [] => match_here p' [] cap
      | _ :: _ => None
      end
  end.

(** [s.match(re)] for a regular expression without the [g] flag: [null], or
    the array of the matched text and the capture. *)
Fixpoint String_match (re : list atom) (s : jsstring) : option (list jsvalue) :=
  match match_here re s VUndefined with
  | Some (rest, cap) => Some [VStr (take (length s - length rest) s); cap]
  | None =>
      match s with
      | [] => None
      | _ :: t => String_match re t
      end
  end.

Definition literal (s : string) : list atom := map Char (js s).

End RegExp.

(** ** The document, as [@contentful/rich-text-types] delivers it *)

Module BLOCKS.
Definition DOCUMENT : string := "document".
Definition PARAGRAPH : string := "paragraph".
Definition HEADING_2 : string := "heading-2".
Definition HEADING_3 : string := "heading-3".
Definition HEADING_4 : string := "heading-4".
Definition HEADING_5 : string := "heading-5".
Definition HEADING_6 : string := "heading-6".
Definition EMBEDDED_ENTRY : string := "embedded-entry-block".
Definition EMBEDDED_ASSET : string := "embedded-asset-block".
End BLOCKS.

Module INLINES.
Definition HYPERLINK : string := "hyperlink".
Definition EMBEDDED_ENTRY : string := "embedded-entry-inline".
End INLINES.

Record mark : Type := Mark { type : string }.

(** A node of the rich-text tree.  The handlers are declared over
    [contentful.RichTextContent], which names these five fields; the
    documents they are called on are the [Document] of
    [@contentful/rich-text-types], in which a field a node does not carry
    reads as [undefined]: blocks and inlines have [content] and no [marks]
    or [value], a text node has [marks] and [value] and no [content]. *)
Inductive node : Type := Node {
  nodeType : string;
  data : list (string * jsvalue);
  content : option (list node);
  marks : option (list mark);
  value : option jsstring
}.

(** A text run of the document. *)
Definition text (v : jsstring) (ms : list mark) : node :=
  Node "text" [] None (Some ms) (Some v).

(** A block or an inline node of the document. *)
Definition element (nodeType : string) (data : list (string * jsvalue))
    (children : list node) : node :=
  Node nodeType data (Some children) None None.

Module CategoryLink.
Record t : Type := Make {
  title : jsstring;
  count : Z;
  path : jsstring;
  id : jsstring
}.
End CategoryLink.

(** ** React nodes *)

Inductive react : Type :=
| RValue (v : jsvalue)
| RElement (component : string) (props : list (string * jsvalue))
    (children : list react)
| RArray (nodes : list react).

Definition RText (s : jsstring) : react := RValue (VStr s).
Definition RNull : react := RValue VNull.

(** ** The [Article] component *)

(** The handlers close over [categoryMap]; the object is threaded through
    them as a store, so that a write to it would show. *)
Definition M (A : Type) : Type :=
  gmap jsstring CategoryLink.t -> outcome A * gmap jsstring CategoryLink.t.

#[export] Instance M_ret : MRet M := fun A a m => (Ok a, m).

#[export] Instance M_bind : MBind M := fun A B f x m =>
  match x m with
  | (Ok a, m') => f a m'
  | (Throw e, m') => (Throw e, m')
  end.

Definition lift {A} (x : outcome A) : M A := fun m => (x, m).

(** [categoryMap[key]?.path]: properties inherited from [Object.prototype]
    have no [path], so every key that is not a category id reads as
    [undefined]. *)
Definition categoryMap_path (key : jsvalue) : M jsvalue := fun m =>
  match m !! to_string key with
  | Some link => (Ok (VStr (CategoryLink.path link)), m)
  | None => (Ok VUndefined, m)
  end.

(** [categories.reduce((acc, value) => ({...acc, [value.id]: value}), {})] *)
Definition categoryMap (categories : list CategoryLink.t)
    : gmap jsstring CategoryLink.t :=
  foldl (fun acc value => <[CategoryLink.id value := value]> acc) ∅ categories.

Definition youtubeRe : list RegExp.atom :=
  RegExp.literal "/youtu" ++ [RegExp.AnyChar] ++ RegExp.literal "be/"
    ++ [RegExp.CaptureAnyPlus; RegExp.EndOfInput].

(** [node.content?.slice(0, 1).shift()] *)
Definition first_content (n : node) : option node :=
  match content n with
  | Some l => head (take 1 l)
  | None => None
  end.

(** [content?.nodeType === 'text'] *)
Definition is_text (c : option node) : bool :=
  match c with
  | Some c => String.eqb (nodeType c) "text"
  | None => false
  end.

(** [content?.value] *)
Definition value_of (c : option node) : jsvalue :=
  match c with
  | Some c => match value c with Some v => VStr v | None => VUndefined end
  | None => VUndefined
  end.

Definition handler : Type := node -> react -> M react.

Section RenderNode.

(** [format(new Date(createdAt), 'yyyy年MM月dd日 HH:mm')] of date-fns: the
    formatted local time, a [RangeError] for an invalid date. *)
Variable format : jsvalue -> outcome jsstring.

(** The five heading handlers differ in [variant] and [sx] only. *)
Definition heading (variant : string) (sx : list (string * jsvalue))
    (node : node) (children : react) : outcome react :=
  let content := first_content node in
  match is_text content, value_of content with
  | true, VStr v =>
      let anchor := anchor v in
      Ok (RElement "Typography"
            ([("id", VStr anchor); ("variant", VStr (js variant))] ++ sx)
            [children])
  | _, _ => Ok children
  end.

Definition renderNode_HEADING_2 : node -> react -> outcome react :=
  heading "h2"
    [("sx", VObj [("marginTop", VStr (js "32px"));
                  ("marginBottom", VStr (js "16px"))])].

Definition renderNode_HEADING_3 : node -> react -> outcome react :=
  heading "h3"
    [("sx", VObj [("borderBottom", VStr (js "solid 2px"));
                  ("lineHeight", VNum 2)])].

Definition renderNode_HEADING_4 : node -> react -> outcome react :=
  heading "h4" [].

Definition renderNode_HEADING_5 : node -> react -> outcome react :=
  heading "h5" [].

Definition renderNode_HEADING_6 : node -> react -> outcome react :=
  heading "h6" [].

(** [content?.marks.find((x) => x.type === 'code')]: the chain stops at a
    missing [content] only; [find] on a missing [marks] is a [TypeError]. *)
Definition find_code_mark (c : option node) : outcome (option mark) :=
  match c with
  | None => Ok None
  | Some c =>
      match marks c with
      | Some ms => Ok (find (fun x => String.eqb (type x) "code") ms)
      | None => Throw TypeError
      end
  end.

Definition renderNode_PARAGRAPH (node : node) (children : react)
    : outcome react :=
  let content := first_content node in
  found ← find_code_mark content;
  match found with
  | Some _ =>
      Ok (RElement "div" []
            [RElement "pre" [] [RElement "code" [] [children]]])
  | None =>
      if is_text content then Ok (RElement "Text" [] [children])
      else Ok (RElement "p" [] [children])
  end.

Definition renderNode_EMBEDDED_ASSET (node : node) (_ : react)
    : outcome react :=
  fields ← get_path (VObj (data node)) ["target"; "fields"];
  url ← get_path fields ["file"; "url"];
  width ← get_path fields ["file"; "details"; "image"; "width"];
  height ← get_path fields ["file"; "details"; "image"; "height"];
  title ← get_path fields ["file"; "title"];
  description ← get_path fields ["description"];
  Ok (RElement "Box" [("sx", VObj [("margin", VStr (js "16px 0"))])]
        [RElement "Image"
           [("src", VStr (js "https:" ++ to_string url));
            ("width", width); ("height", height); ("alt", title)] [];
         if strict_neq_str description []
         then RElement "Typography" [("variant", VStr (js "caption"))]
                [RValue description]
         else RNull]).

Definition renderNode_EMBEDDED_ENTRY (node : node) (_ : react) : M react :=
  let data := VObj (data node) in
  title0 ← lift (get_path data ["target"; "fields"; "title"]);
  let title := nullish title0 (VStr []) in
  id ← lift (get_path data ["target"; "fields"; "category"; "sys"; "id"]);
  categorySlug ← categoryMap_path id;
  slug ← lift (get_path data ["target"; "fields"; "slug"]);
  createdAt ← lift (get_path data ["target"; "sys"; "createdAt"]);
  date ← lift (format createdAt);
  mret (RElement "SmallArticleCard"
          [("title", title);
           ("href", VStr (to_string categorySlug ++ js "/" ++ to_string slug));
           ("date", VStr date)] []).

Definition renderNode_INLINE_EMBEDDED_ENTRY (node : node) (_ : react)
    : M react :=
  let data := VObj (data node) in
  title0 ← lift (get_path data ["target"; "fields"; "title"]);
  let title := nullish title0 (VStr []) in
  id ← lift (get_path data ["target"; "fields"; "category"; "sys"; "id"]);
  categorySlug ← categoryMap_path id;
  slug ← lift (get_path data ["target"; "fields"; "slug"]);
  mret (RElement "a"
          [("href", VStr (to_string categorySlug ++ js "/" ++ to_string slug))]
          [RValue title]).

(** ['uri' in node.data && typeof node.data.uri === 'string'] *)
Definition string_uri (n : node) : option jsstring :=
  match assoc "uri" (data n) with
  | Some (VStr uri) => Some uri
  | _ => None
  end.

(** [Array.isArray(matched) && matched.length >= 2] *)
Definition is_video (matched : option (list jsvalue)) : bool :=
  match matched with
  | Some arr => bool_decide (2 <= length arr)%nat
  | None => false
  end.

Definition renderNode_HYPERLINK (node : node) (children : react)
    : outcome react :=
  match String.eqb (nodeType node) INLINES.HYPERLINK, string_uri node with
  | true, Some uri =>
      let matched := RegExp.String_match youtubeRe uri in
      if is_video matched then
        Ok (RElement "YouTubeEmbed" []
              [RElement "YouTube"
                 [("videoId", nth 1 (default [] matched) VUndefined)] []])
      else
        let content := first_content node in
        Ok (RElement "a"
              [("href", VStr uri); ("target", VStr (js "_blank"));
               ("rel", VStr (js "noreferrer noopener"))]
              [RValue (nullish (value_of content) (VStr uri))])
  | _, _ => Ok children
  end.

(** The table itself: the handler registered for a node type. *)
Definition renderNode (nodeType : string) : option handler :=
  if String.eqb nodeType BLOCKS.HEADING_2 then
    Some (fun n c => lift (renderNode_HEADING_2 n c))
  else if String.eqb nodeType BLOCKS.HEADING_3 then
    Some (fun n c => lift (renderNode_HEADING_3 n c))
  else if String.eqb nodeType BLOCKS.HEADING_4 then
    Some (fun n c => lift (renderNode_HEADING_4 n c))
  else if String.eqb nodeType BLOCKS.HEADING_5 then
    Some (fun n c => lift (renderNode_HEADING_5 n c))
  else if String.eqb nodeType BLOCKS.HEADING_6 then
    Some (fun n c => lift (renderNode_HEADING_6 n c))
  else if String.eqb nodeType BLOCKS.PARAGRAPH then
    Some (fun n c => lift (renderNode_PARAGRAPH n c))
  else if String.eqb nodeType BLOCKS.EMBEDDED_ASSET then
    Some (fun n c => lift (renderNode_EMBEDDED_ASSET n c))
  else if String.eqb nodeType BLOCKS.EMBEDDED_ENTRY then
    Some renderNode_EMBEDDED_ENTRY
  else if String.eqb nodeType INLINES.EMBEDDED_ENTRY then
    Some renderNode_INLINE_EMBEDDED_ENTRY
  else if String.eqb nodeType INLINES.HYPERLINK then
    Some (fun n c => lift (renderNode_HYPERLINK n c))
  else None.

End RenderNode.

(** ** The traversal: [documentToReactComponents(contents, {renderNode})]

    The walk of [@contentful/rich-text-react-renderer]: a text node goes
    through the mark renderers, any other node has its children rendered
    first and is then handed, with them, to the handler of its type.  The
    renderers the library brings for marks and for the node types the
    table leaves alone are parameters.  React keys are left out. *)

Section Document.

Variable format : jsvalue -> outcome jsstring.
Variable defaultNodeRenderers : string -> option handler.
Variable defaultMarkRenderers : string -> option (react -> outcome react).

(** [{...defaultNodeRenderers, ...options.renderNode}] *)
Definition options_renderNode (nodeType : string) : option handler :=
  match renderNode format nodeType with
  | Some h => Some h
  | None => defaultNodeRenderers nodeType
  end.

(** [node.marks.reduce((value, mark) => !renderMark[mark.type] ? value :
    renderMark[mark.type](value), node.value)].  What [renderMark] holds
    under a mark type is called, whatever it is: an entry that is no
    function, as [Object.prototype] under ["__proto__"], is a renderer that
    throws, and the first exception ends the walk. *)
Definition textToReactComponent (n : node) : outcome react :=
  match marks n with
  | Some ms =>
      foldl (fun acc mark =>
               value ← acc;
               match defaultMarkRenderers (type mark) with
               | Some f => f value
               | None => Ok value
               end)
        (Ok (RValue (value_of (Some n)))) ms
  | None => Throw TypeError
  end.

Fixpoint nodeToReactComponent (n : node) : M react :=
  match n with
  | Node nodeType _ content _ _ =>
      if String.eqb nodeType "text" then lift (textToReactComponent n)
      else
        let fix nodeListToReactComponents (nodes : list node)
            : M (list react) :=
          match nodes with
          | [] => mret []
          | x :: rest =>
              r ← nodeToReactComponent x;
              rs ← nodeListToReactComponents rest;
              mret (r :: rs)
          end in
        children ← match content with
                   | Some nodes => nodeListToReactComponents nodes
                   | None => lift (Throw TypeError)
                   end;
        match (if String.eqb nodeType "" then None
               else options_renderNode nodeType) with
        | Some h => h n (RArray children)
        | None => mret (RElement "Fragment" [] [RArray children])
        end
  end.

(** [nodes.map((node) => nodeToReactComponent(node, options))], the loop
    inside the walk. *)
Fixpoint nodeListToReactComponents (nodes : list node) : M (list react) :=
  match nodes with
  | [] => mret []
  | x :: rest =>
      r ← nodeToReactComponent x;
      rs ← nodeListToReactComponents rest;
      mret (r :: rs)
  end.

(** [contents !== null ? documentToReactComponents(contents, ...) : null] *)
Definition Article_contents (contents : option node) : M react :=
  match contents with
  | Some document => nodeToReactComponent document
  | None => mret RNull
  end.

End Document.

(** ** Readings of the handlers used in the statements *)

(** The identifier a rendered block carries as a heading. *)
Definition heading_id (r : react) : option jsvalue :=
  match r with
  | RElement "Typography" props _ => assoc "id" props
  | _ => None
  end.

(** The two outcomes of the test on [matched] in the hyperlink handler. *)
Inductive link_kind : Type :=
| Video (videoId : jsvalue)
| Generic.

Definition classify (uri : jsstring) : link_kind :=
  let matched := RegExp.String_match youtubeRe uri in
  if is_video matched then Video (nth 1 (default [] matched) VUndefined)
  else Generic.

(** The level a heading node type stands for. *)
Definition heading_level (nodeType : string) : option N :=
  if String.eqb nodeType BLOCKS.HEADING_2 then Some 2
  else if String.eqb nodeType BLOCKS.HEADING_3 then Some 3
  else if String.eqb nodeType BLOCKS.HEADING_4 then Some 4
  else if String.eqb nodeType BLOCKS.HEADING_5 then Some 5
  else if String.eqb nodeType BLOCKS.HEADING_6 then Some 6
  else None.

(** A text run: a node of type [text] that carries its string. *)
Definition text_run (c : node) (v : jsstring) : Prop :=
  nodeType c = "text" /\ value c = Some v.

(** The first child that is a text node, searched through all children. *)
Definition first_text_child (n : node) : option node :=
  find (fun c => String.eqb (nodeType c) "text") (default [] (content n)).

(** The authority of a URI: what stands between [//] and the next [/], [?]
    or [#]. *)
Fixpoint until_delimiter (s : jsstring) : jsstring :=
  match s with
  | [] => []
  | c :: t =>
      if (c =? 47) || (c =? 63) || (c =? 35) then []
      else c :: until_delimiter t
  end.

Fixpoint host (uri : jsstring) : option jsstring :=
  match uri with
  | 58 :: 47 :: 47 :: rest => Some (until_delimiter rest)
  | _ :: t => host t
  | [] => None
  end.

(** The path an embedded entry links to. *)
Definition entry_href (m : gmap jsstring CategoryLink.t)
    (categoryId slug : jsstring) : jsstring :=
  match m !! categoryId with
  | Some link => CategoryLink.path link ++ js "/" ++ slug
  | None => js "undefined/" ++ slug
  end.

(** The image of an embedded asset. *)
Definition asset_image (url : jsstring) (width height alt : jsvalue) : react :=
  RElement "Image"
    [("src", VStr (js "https:" ++ url)); ("width", width);
     ("height", height); ("alt", alt)] [].

Definition asset_box (children : list react) : react :=
  RElement "Box" [("sx", VObj [("margin", VStr (js "16px 0"))])] children.

Definition asset_caption (description : jsvalue) : react :=
  RElement "Typography" [("variant", VStr (js "caption"))]
    [RValue description].

(** The link to another site. *)
Definition external_link (uri : jsstring) (label : jsvalue) : react :=
  RElement "a"
    [("href", VStr uri); ("target", VStr (js "_blank"));
     ("rel", VStr (js "noreferrer noopener"))]
    [RValue label].

Definition video_embed (videoId : jsvalue) : react :=
  RElement "YouTubeEmbed" [] [RElement "YouTube" [("videoId", videoId)] []].

(** What the statement calls the label: the value of the first text child,
    the URI when no child is a text node. *)
Definition label_of_first_text_child (n : node) (uri : jsstring) : jsvalue :=
  match first_text_child n with
  | Some c => value_of (Some c)
  | None => VStr uri
  end.

(** The children of a hyperlink are text runs. *)
Definition text_children (n : node) : Prop :=
  Forall (fun c => exists v, text_run c v) (default [] (content n)).

(** [pat] occurs in [s]. *)
Definition occurs (pat s : jsstring) : Prop :=
  exists a b, s = a ++ pat ++ b.

(** No line terminator in [s]: [.] matches every code unit of it. *)
Definition one_line (s : jsstring) : Prop :=
  forallb RegExp.dot s = true.

(** ** The shapes of the document model *)

(** The evaluation returns normally. *)
Definition returns {A} (x : outcome A) : Prop := exists a, x = Ok a.

(** [v] is a string. *)
Definition is_string (v : jsvalue) : Prop := exists s, v = VStr s.

(** The entry of an embedded-entry node has what the handlers read: the
    title can be reached, category id and slug are strings, and for the
    block there is also a creation date that the formatter accepts. *)
Definition entry_ok (format : jsvalue -> outcome jsstring)
    (with_date : bool) (d : list (string * jsvalue)) : Prop :=
  returns (get_path (VObj d) ["target"; "fields"; "title"])
  /\ (exists id,
        get_path (VObj d) ["target"; "fields"; "category"; "sys"; "id"]
        = Ok id /\ is_string id)
  /\ (exists slug,
        get_path (VObj d) ["target"; "fields"; "slug"] = Ok slug
        /\ is_string slug)
  /\ (with_date = true ->
      exists createdAt,
        get_path (VObj d) ["target"; "sys"; "createdAt"] = Ok createdAt
        /\ returns (format createdAt)).

(** The asset of an embedded-asset node is an image: the URL of its file is
    a string, and dimensions, title and description can be read, present or
    not. *)
Definition asset_ok (d : list (string * jsvalue)) : Prop :=
  exists fields,
    get_path (VObj d) ["target"; "fields"] = Ok fields
    /\ (exists url,
          get_path fields ["file"; "url"] = Ok url /\ is_string url)
    /\ returns (get_path fields ["file"; "details"; "image"; "width"])
    /\ returns (get_path fields ["file"; "details"; "image"; "height"])
    /\ returns (get_path fields ["file"; "title"])
    /\ returns (get_path fields ["description"]).

(** A text run whose marks are of the types [known]. *)
Inductive text_node (known : string -> Prop) : node -> Prop :=
| TextNode d ms v :
    Forall (fun mk => known (type mk)) ms ->
    text_node known (Node "text" d None (Some ms) (Some v)).

Inductive inline_node (format : jsvalue -> outcome jsstring)
    (known : string -> Prop) : node -> Prop :=
| InlineText n :
    text_node known n -> inline_node format known n
| InlineHyperlink d children :
    Forall (text_node known) children ->
    inline_node format known (element INLINES.HYPERLINK d children)
| InlineEntry d :
    entry_ok format false d ->
    inline_node format known (element INLINES.EMBEDDED_ENTRY d []).

(** Blocks, with the paragraphs that start with a text run or are empty. *)
Inductive block_node (format : jsvalue -> outcome jsstring)
    (known : string -> Prop) : node -> Prop :=
| BlockHeading nt l d children :
    heading_level nt = Some l ->
    Forall (inline_node format known) children ->
    block_node format known (element nt d children)
| BlockParagraph d children :
    Forall (inline_node format known) children ->
    (forall c, head children = Some c -> text_node known c) ->
    block_node format known (element BLOCKS.PARAGRAPH d children)
| BlockAsset d :
    asset_ok d ->
    block_node format known (element BLOCKS.EMBEDDED_ASSET d [])
| BlockEntry d :
    entry_ok format true d ->
    block_node format known (element BLOCKS.EMBEDDED_ENTRY d []).

(** ** The table of contents *)

(** Modelled from the spec: the [TableOfContents] component
    ([@/components/molecules/TableOfContents]) is not among the sources.  An
    entry of its list holds level, text and anchor of a heading. *)
Record toc_entry : Type := TocEntry {
  toc_level : N;
  toc_text : jsstring;
  toc_anchor : jsstring
}.

(** Modelled from the spec: the entry of the missing [TableOfContents]
    component for one node.  A heading of level 2 to 6 is listed with the
    value of its first text run and the anchor that the same hash as in the
    renderer gives for it; a heading whose first child is not a text run is
    skipped, and so is every other node. *)
Definition toc_entry_of (n : node) : option toc_entry :=
  match heading_level (nodeType n), first_content n with
  | Some l, Some c =>
      match String.eqb (nodeType c) "text", value c with
      | true, Some v => Some (TocEntry l v (anchor v))
      | _, _ => None
      end
  | _, _ => None
  end.

(** Modelled from the spec: the list of the missing [TableOfContents]
    component, the entries of the headings of the document in their order. *)
Definition TableOfContents (contents : option node) : list toc_entry :=
  match contents with
  | Some document => omap toc_entry_of (default [] (content document))
  | None => []
  end.

(** ** Sample documents *)

Module Sample.

(** A date formatter for the examples: it hands an ISO string back and
    rejects anything that is not a string. *)
Definition format (createdAt : jsvalue) : outcome jsstring :=
  match createdAt with
  | VStr s => Ok s
  | _ => Throw RangeError
  end.

Definition categories : list CategoryLink.t :=
  [CategoryLink.Make (js "Tech") 3 (js "/tech") (js "cat1")].

Definition entry (categoryId slug : string) : list (string * jsvalue) :=
  [("target",
    VObj [("sys", VObj [("createdAt", VStr (js "2022-01-02T03:04:05.000Z"))]);
          ("fields",
           VObj [("title", VStr (js "Other article"));
                 ("slug", VStr (js slug));
                 ("category",
                  VObj [("sys", VObj [("id", VStr (js categoryId))])])])])].

(** The asset of an embedded-asset node; [more] holds the fields next to
    [file]. *)
Definition asset (more : list (string * jsvalue)) : list (string * jsvalue) :=
  [("target",
    VObj [("fields",
           VObj (("file",
                  VObj [("url", VStr (js "//images.ctfassets.net/a.png"));
                        ("title", VStr (js "A picture"));
                        ("details",
                         VObj [("image",
                                VObj [("width", VNum 640);
                                      ("height", VNum 480)])])])
                 :: more))])].

Definition embedded_asset (more : list (string * jsvalue)) : node :=
  element BLOCKS.EMBEDDED_ASSET (asset more) [].

(** An embedded asset as the store delivers it: title and description are
    fields of the asset, next to [file], and [file] holds URL, details, file
    name and content type. *)
Definition photo (description : jsstring) : node :=
  element BLOCKS.EMBEDDED_ASSET
    [("target",
      VObj [("fields",
             VObj [("title", VStr (js "A picture"));
                   ("description", VStr description);
                   ("file",
                    VObj [("url", VStr (js "//images.ctfassets.net/a.png"));
                          ("details",
                           VObj [("size", VNum 1024);
                                 ("image",
                                  VObj [("width", VNum 640);
                                        ("height", VNum 480)])]);
                          ("fileName", VStr (js "a.png"));
                          ("contentType", VStr (js "image/png"))])])])]
    [].

Definition hyperlink (uri : string) (children : list node) : node :=
  element INLINES.HYPERLINK [("uri", VStr (js uri))] children.

Definition inline_entry : node :=
  element INLINES.EMBEDDED_ENTRY (entry "cat1" "foo") [].

Definition intro : node :=
  element BLOCKS.HEADING_2 [] [text (js "Intro") []].

(** A heading that starts with an inline entry. *)
Definition heading_entry_first : node :=
  element BLOCKS.HEADING_3 [] [inline_entry; text (js " and more") []].

(** A heading whose text node carries no [value]. *)
Definition heading_without_value : node :=
  element BLOCKS.HEADING_2 [] [Node "text" [] None (Some []) None].

(** A paragraph that starts with a link. *)
Definition paragraph_link_first : node :=
  element BLOCKS.PARAGRAPH []
    [hyperlink "https://example.com/page" [text (js "page") []];
     text (js " has more.") []].

(** A paragraph that starts with an inline entry. *)
Definition paragraph_entry_first : node :=
  element BLOCKS.PARAGRAPH [] [inline_entry; text (js " is related.") []].

Definition paragraph_code : node :=
  element BLOCKS.PARAGRAPH []
    [text (js "npm i") [Mark "code"]; text (js " installs") []].

Definition paragraph_prose : node :=
  element BLOCKS.PARAGRAPH []
    [text (js "Hello") []; text (js "world") [Mark "code"]].

Definition document (blocks : list node) : node :=
  element BLOCKS.DOCUMENT [] blocks.

(** The renderers of the library that the samples meet: the document node
    renders as its children, the [code] mark as a [code] element; under
    ["__proto__"] the table of mark renderers holds [Object.prototype],
    which cannot be called. *)
Definition defaultNodeRenderers (nodeType : string) : option handler :=
  if String.eqb nodeType BLOCKS.DOCUMENT then Some (fun _ children => mret children)
  else None.

Definition defaultMarkRenderers (type : string)
    : option (react -> outcome react) :=
  if String.eqb type "code"
  then Some (fun text => Ok (RElement "code" [] [text]))
  else if String.eqb type "__proto__" then Some (fun _ => Throw TypeError)
  else None.

(** The mark types that every version of [MARKS] has.  None of them names
    a property of [Object.prototype]. *)
Definition document_marks (type : string) : Prop :=
  In type ["bold"; "italic"; "underline"; "code"].

(** The scenario of the specification: a heading, a paragraph of prose, a
    paragraph of code and a video link. *)
Definition scenario : node :=
  document
    [element BLOCKS.HEADING_2 [] [text (js "Intro") []];
     element BLOCKS.PARAGRAPH [] [text (js "Hello") []];
     element BLOCKS.PARAGRAPH [] [text (js "code") [Mark "code"]];
     hyperlink "https://youtu.be/xyz" [text (js "Watch") []]].

End Sample.

(** A digit of lower-case hexadecimal: [0] to [9] or [a] to [f]. *)
Definition lower_hex (c : N) : Prop :=
  (48 <= c <= 57) \/ (97 <= c <= 102).

(** ** The page: [getStaticPaths], [getStaticProps], [ArticleContainer]

    The entries of the content store as the page reads them.  The models of
    [@/api/contentful/models/blog] are not among the sources; the records
    hold the fields that the page reads, a thumbnail as the loose value
    that the optional chains of [ArticleContainer] inspect. *)

Module Contentful.
Record Sys : Type := MakeSys { id : jsstring; createdAt : jsstring }.
Record Entry (F : Type) : Type := MakeEntry { sys : Sys; fields : F }.
Arguments MakeEntry {F} sys fields.
Arguments sys {F} e.
Arguments fields {F} e.
End Contentful.

Module CategoryModel.
Record t : Type := Make { name : jsstring; slug : jsstring }.
End CategoryModel.

Module ArticleModel.
Record t : Type := Make {
  title : jsstring;
  slug : jsstring;
  category : Contentful.Entry CategoryModel.t;
  thumbnail : jsvalue;
  contents : option node
}.
End ArticleModel.

Module WithLinksCountCategory.
Record t : Type := Make {
  category : Contentful.Entry CategoryModel.t;
  count : Z
}.
End WithLinksCountCategory.

(** [interface Params extends ParsedUrlQuery] *)
Module Params.
Record t : Type := Make { category : jsstring; path : jsstring }.
End Params.

Module ContainerProps.
Record t : Type := Make {
  path : jsstring;
  category : Contentful.Entry CategoryModel.t;
  article : Contentful.Entry ArticleModel.t;
  withLinksCountCategories : list WithLinksCountCategory.t
}.
End ContainerProps.

Module BreadCrumbsModel.
Record t : Type := Make { href : jsstring; displayName : jsstring }.
End BreadCrumbsModel.

Module ArticleProps.
Record t : Type := Make {
  path : jsstring;
  title : jsstring;
  date : jsstring;
  breadCrumbs : list BreadCrumbsModel.t;
  imageSrc : jsvalue;
  imageWidth : jsvalue;
  imageHeight : jsvalue;
  contents : option node;
  categories : list CategoryLink.t
}.
End ArticleProps.

(** What [getStaticProps] returns: the props of the page, or [notFound]. *)
Inductive GetStaticPropsResult : Type :=
| Props (props : ContainerProps.t)
| NotFound.

(** What [getStaticPaths] returns. *)
Record GetStaticPathsResult : Type := MakePaths {
  paths : list Params.t;
  fallback : bool
}.

(** [o?.rest]: the whole chain is [undefined] when [o] is [undefined] or
    [null], and [rest] is evaluated on [o] otherwise. *)
Definition optional (o : jsvalue) (rest : jsvalue -> outcome jsvalue)
    : outcome jsvalue :=
  match o with
  | VUndefined | VNull => Ok VUndefined
  | _ => rest o
  end.

(** [typeof v !== 'undefined'] *)
Definition is_defined (v : jsvalue) : bool :=
  match v with
  | VUndefined => false
  | _ => true
  end.

Section Page.

(** The answers of the content store, as the awaited calls of the client
    deliver them: the items of the category query, of the article query for
    a path and a category slug (the query asks for one item), and of the
    query for all articles. *)
Variable categoryEntries : list (Contentful.Entry CategoryModel.t).
Variable articleEntries :
  jsstring -> jsstring -> list (Contentful.Entry ArticleModel.t).
Variable allArticleEntries : list (Contentful.Entry ArticleModel.t).

(** [withLinksCountToCategory] of [@/utils], not among the sources. *)
Variable withLinksCountToCategory :
  list (Contentful.Entry CategoryModel.t) -> list WithLinksCountCategory.t.

(** [siteTitle] of [@/constants]. *)
Variable siteTitle : jsstring.

(** [format(new Date(createdAt), 'yyyy年MM月dd日 HH:mm')] of date-fns. *)
Variable format : jsvalue -> outcome jsstring.

Definition getStaticProps (params : option Params.t) : GetStaticPropsResult :=
  match params with
  | Some params =>
      if bool_decide (Params.path params <> []) then
        let LinksCount := withLinksCountToCategory categoryEntries in
        let currentCategory :=
          find (fun e => bool_decide
                  (CategoryModel.slug (Contentful.fields e)
                   = Params.category params))
            categoryEntries in
        let entry :=
          articleEntries (Params.path params) (Params.category params) in
        let item := head entry in
        match item, currentCategory with
        | Some item, Some currentCategory =>
            Props (ContainerProps.Make
                     (js "/" ++ Params.category params ++ js "/"
                        ++ Params.path params)
                     currentCategory item LinksCount)
        | _, _ => NotFound
        end
      else NotFound
  | None => NotFound
  end.

Definition getStaticPaths : GetStaticPathsResult :=
  let paths :=
    map (fun item =>
           Params.Make
             (CategoryModel.slug
                (Contentful.fields
                   (ArticleModel.category (Contentful.fields item))))
             (ArticleModel.slug (Contentful.fields item)))
      allArticleEntries in
  MakePaths paths false.

(** The bread crumbs of [ArticleContainer]. *)
Definition breadCrumbs (path : jsstring)
    (category : Contentful.Entry CategoryModel.t)
    (article : Contentful.Entry ArticleModel.t) : list BreadCrumbsModel.t :=
  [BreadCrumbsModel.Make (js "/") siteTitle;
   BreadCrumbsModel.Make
     (js "/" ++ CategoryModel.slug (Contentful.fields category))
     (CategoryModel.name (Contentful.fields category));
   BreadCrumbsModel.Make
     (js "/" ++ CategoryModel.slug (Contentful.fields category) ++ js "/"
        ++ path)
     (ArticleModel.title (Contentful.fields article))].

(** The category links of [ArticleContainer]. *)
Definition categoryLinks
    (withLinksCountCategories : list WithLinksCountCategory.t)
    : list CategoryLink.t :=
  map (fun x =>
         let category := WithLinksCountCategory.category x in
         let count := WithLinksCountCategory.count x in
         CategoryLink.Make
           (CategoryModel.name (Contentful.fields category))
           count
           (js "/" ++ CategoryModel.slug (Contentful.fields category))
           (Contentful.id (Contentful.sys category)))
    withLinksCountCategories.

(** [thumbnail?.fields.file?.url] *)
Definition thumbnail_url (thumbnail : jsvalue) : outcome jsvalue :=
  optional thumbnail (fun t =>
    file ← get_path t ["fields"; "file"];
    optional file (fun f => get f "url")).

(** [thumbnail?.fields.file.details.image?.width] and the same for
    [height]. *)
Definition thumbnail_dimension (thumbnail : jsvalue) (k : string)
    : outcome jsvalue :=
  optional thumbnail (fun t =>
    image ← get_path t ["fields"; "file"; "details"; "image"];
    optional image (fun i => get i k)).

(** The props that [ArticleContainer] hands to [Article], in the order in
    which the element evaluates them. *)
Definition ArticleContainer (props : ContainerProps.t)
    : outcome ArticleProps.t :=
  let path := ContainerProps.path props in
  let category := ContainerProps.category props in
  let article := ContainerProps.article props in
  let breadCrumbs := breadCrumbs path category article in
  let categoryLinks :=
    categoryLinks (ContainerProps.withLinksCountCategories props) in
  let thumbnail := ArticleModel.thumbnail (Contentful.fields article) in
  date ← format (VStr (Contentful.createdAt (Contentful.sys article)));
  imageSrc ← thumbnail_url thumbnail;
  imageWidth ← thumbnail_dimension thumbnail "width";
  imageHeight ← thumbnail_dimension thumbnail "height";
  Ok (ArticleProps.Make path
        (ArticleModel.title (Contentful.fields article)) date breadCrumbs
        imageSrc imageWidth imageHeight
        (ArticleModel.contents (Contentful.fields article)) categoryLinks).

End Page.

(** [item.fields.category.fields.slug] *)
Definition category_slug (item : Contentful.Entry ArticleModel.t) : jsstring :=
  CategoryModel.slug
    (Contentful.fields (ArticleModel.category (Contentful.fields item))).

(** The image at the head of [Article]. *)
Definition Article_thumbnail (props : ArticleProps.t) : react :=
  if is_defined (ArticleProps.imageSrc props) then
    RElement "Box" []
      [RElement "Image"
         [("src", VStr (js "https:" ++ to_string (ArticleProps.imageSrc props)));
          ("alt", VStr (js "thumbnail"));
          ("width", ArticleProps.imageWidth props);
          ("height", ArticleProps.imageHeight props)] []]
  else RNull.

(** The category map of [Article]. *)
Definition Article_categoryMap (props : ArticleProps.t)
    : gmap jsstring CategoryLink.t :=
  categoryMap (ArticleProps.categories props).

(** ** A sample store *)

Module PageSample.

Definition category (id name slug : string)
    : Contentful.Entry CategoryModel.t :=
  Contentful.MakeEntry
    (Contentful.MakeSys (js id) (js "2021-12-01T00:00:00.000Z"))
    (CategoryModel.Make (js name) (js slug)).

Definition tech : Contentful.Entry CategoryModel.t :=
  category "cat1" "Tech" "tech".

Definition life : Contentful.Entry CategoryModel.t :=
  category "cat2" "Life" "life".

Definition article (id title slug : string)
    (category : Contentful.Entry CategoryModel.t) (thumbnail : jsvalue)
    : Contentful.Entry ArticleModel.t :=
  Contentful.MakeEntry
    (Contentful.MakeSys (js id) (js "2022-01-02T03:04:05.000Z"))
    (ArticleModel.Make (js title) (js slug) category thumbnail None).

(** A thumbnail with its file, and one whose file was never uploaded. *)
Definition picture : jsvalue :=
  VObj [("fields",
         VObj [("title", VStr (js "Cover"));
               ("file",
                VObj [("url", VStr (js "//images.ctfassets.net/cover.png"));
                      ("details",
                       VObj [("image",
                              VObj [("width", VNum 1200);
                                    ("height", VNum 630)])])])])].

Definition picture_without_file : jsvalue :=
  VObj [("fields", VObj [("title", VStr (js "Cover"))])].

Definition foo : Contentful.Entry ArticleModel.t :=
  article "a1" "Foo" "foo" tech picture.

Definition bar : Contentful.Entry ArticleModel.t :=
  article "a2" "Bar" "bar" life VUndefined.

Definition draft : Contentful.Entry ArticleModel.t :=
  article "a3" "Draft" "" life picture_without_file.

Definition categoryEntries : list (Contentful.Entry CategoryModel.t) :=
  [tech; life].

Definition allArticleEntries : list (Contentful.Entry ArticleModel.t) :=
  [foo; bar].

(** The store answers the article query with the articles of that slug in
    that category. *)
Definition articleEntries (path category : jsstring)
    : list (Contentful.Entry ArticleModel.t) :=
  take 1
    (filter (fun a =>
               ArticleModel.slug (Contentful.fields a) = path
               /\ CategoryModel.slug
                    (Contentful.fields
                       (ArticleModel.category (Contentful.fields a)))
                  = category)
       [foo; bar; draft]).

Definition withLinksCountToCategory
    (categories : list (Contentful.Entry CategoryModel.t))
    : list WithLinksCountCategory.t :=
  map (fun c => WithLinksCountCategory.Make c 1) categories.

Definition siteTitle : jsstring := js "Tech blog".

Definition links : list CategoryLink.t :=
  categoryLinks (withLinksCountToCategory categoryEntries).

(** The props of the page of an article. *)
Definition props (category : Contentful.Entry CategoryModel.t)
    (article : Contentful.Entry ArticleModel.t) : ContainerProps.t :=
  ContainerProps.Make
    (js "/" ++ CategoryModel.slug (Contentful.fields category) ++ js "/"
       ++ ArticleModel.slug (Contentful.fields article))
    category article (withLinksCountToCategory categoryEntries).

(** An entry link that the store did not resolve: the target is the link
    itself and has no fields. *)
Definition unresolved : list (string * jsvalue) :=
  [("target",
    VObj [("sys", VObj [("type", VStr (js "Link"));
                        ("linkType", VStr (js "Entry"));
                        ("id", VStr (js "a9"))])])].

(** The asset of a document that is no image: its file has details, but no
    image among them. *)
Definition pdf : list (string * jsvalue) :=
  [("target",
    VObj [("fields",
           VObj [("title", VStr (js "Slides"));
                 ("file",
                  VObj [("url", VStr (js "//assets.ctfassets.net/slides.pdf"));
                        ("details", VObj [("size", VNum 52100)])])])])].

End PageSample.

(** * Properties *)

(** ** Proof steps *)

(** One level of the table at a time. *)
Ltac heading_level_cases nt :=
  unfold heading_level, renderNode;
  repeat match goal with
    | |- context [String.eqb nt ?s] =>
        destruct (String.eqb_spec nt s) as [->|_];
        [intros [= <-] [= <-]|]
    end;
  try discriminate.

(** ** Embedded entries: the category lookup *)

Lemma categoryMap_snoc (categories : list CategoryLink.t) (c : CategoryLink.t) :
  categoryMap (categories ++ [c])
  = <[CategoryLink.id c := c]> (categoryMap categories).
Proof. unfold categoryMap. rewrite foldl_app. reflexivity. Qed.

(** A category id that no category carries is not a key of the map. *)
Lemma categoryMap_absent (categories : list CategoryLink.t) (k : jsstring) :
  Forall (fun c => CategoryLink.id c <> k) categories ->
  categoryMap categories !! k = None.
Proof.
  induction categories as [|c cs IH] using rev_ind; intros H.
  - apply lookup_empty.
  - apply Forall_app in H as [Hcs Hc%Forall_inv].
    rewrite categoryMap_snoc, lookup_insert_ne by done. by apply IH.
Qed.

(** Whatever the map holds under a key is one of the categories, and it
    carries this key as its id. *)
Lemma categoryMap_present (categories : list CategoryLink.t) (k : jsstring)
    (link : CategoryLink.t) :
  categoryMap categories !! k = Some link ->
  link ∈ categories /\ CategoryLink.id link = k.
Proof.
  induction categories as [|c cs IH] using rev_ind.
  - unfold categoryMap. simpl. by rewrite lookup_empty.
  - rewrite categoryMap_snoc. intros H.
    destruct (decide (CategoryLink.id c = k)) as [<-|Hne].
    + rewrite lookup_insert_eq in H. injection H as <-.
      split; [|done]. apply elem_of_app. right. by apply list_elem_of_singleton.
    + rewrite lookup_insert_ne in H by done.
      destruct (IH H) as [Hin Hid]. split; [|done].
      apply elem_of_app. by left.
Qed.

(** C4. For an embedded entry with category id [categoryId] and slug [slug],
    inline or block, the href is the path the category map holds for the id,
    followed by a slash and the slug, and ["undefined/" ++ slug] when the map
    has no such id.  Neither handler throws, and both leave the map as it
    was. *)
Theorem embedded_entry_href (format : jsvalue -> outcome jsstring)
    (n : node) (children : react) (m : gmap jsstring CategoryLink.t)
    (title : jsvalue) (categoryId slug : jsstring) :
  get_path (VObj (data n)) ["target"; "fields"; "title"] = Ok title ->
  get_path (VObj (data n)) ["target"; "fields"; "category"; "sys"; "id"]
    = Ok (VStr categoryId) ->
  get_path (VObj (data n)) ["target"; "fields"; "slug"] = Ok (VStr slug) ->
  renderNode_INLINE_EMBEDDED_ENTRY n children m
    = (Ok (RElement "a" [("href", VStr (entry_href m categoryId slug))]
             [RValue (nullish title (VStr []))]), m)
  /\ (forall (createdAt : jsvalue) (date : jsstring),
        get_path (VObj (data n)) ["target"; "sys"; "createdAt"]
          = Ok createdAt ->
        format createdAt = Ok date ->
        renderNode_EMBEDDED_ENTRY format n children m
          = (Ok (RElement "SmallArticleCard"
                   [("title", nullish title (VStr []));
                    ("href", VStr (entry_href m categoryId slug));
                    ("date", VStr date)] []), m)).
Proof.
  intros Htitle Hid Hslug.
  unfold renderNode_INLINE_EMBEDDED_ENTRY, renderNode_EMBEDDED_ENTRY.
  unfold mbind, M_bind, lift, categoryMap_path, entry_href.
  rewrite Htitle, Hid, Hslug. simpl to_string.
  split.
  - destruct (m !! categoryId) as [link|]; reflexivity.
  - intros createdAt date -> ->.
    destruct (m !! categoryId) as [link|]; reflexivity.
Qed.

Lemma embedded_entry_href_witness :
  renderNode_INLINE_EMBEDDED_ENTRY Sample.inline_entry RNull
      (categoryMap Sample.categories)
    = (Ok (RElement "a" [("href", VStr (js "/tech/foo"))]
             [RValue (VStr (js "Other article"))]),
       categoryMap Sample.categories)
  /\ renderNode_EMBEDDED_ENTRY Sample.format
       (element BLOCKS.EMBEDDED_ENTRY (Sample.entry "missing" "foo") []) RNull
       (categoryMap Sample.categories)
    = (Ok (RElement "SmallArticleCard"
             [("title", VStr (js "Other article"));
              ("href", VStr (js "undefined/foo"));
              ("date", VStr (js "2022-01-02T03:04:05.000Z"))] []),
       categoryMap Sample.categories).
Proof.
  split.
  - exact (proj1 (embedded_entry_href Sample.format Sample.inline_entry RNull
                    (categoryMap Sample.categories)
                    (VStr (js "Other article")) (js "cat1") (js "foo")
                    eq_refl eq_refl eq_refl)).
  - exact (proj2 (embedded_entry_href Sample.format
                    (element BLOCKS.EMBEDDED_ENTRY
                       (Sample.entry "missing" "foo") [])
                    RNull (categoryMap Sample.categories)
                    (VStr (js "Other article")) (js "missing") (js "foo")
                    eq_refl eq_refl eq_refl)
             (VStr (js "2022-01-02T03:04:05.000Z"))
             (js "2022-01-02T03:04:05.000Z") eq_refl eq_refl).
Defined.

(** ** Headings *)

Lemma first_content_cons (n c : node) (rest : list node) :
  content n = Some (c :: rest) -> first_content n = Some c.
Proof. unfold first_content. by intros ->. Qed.

Lemma heading_text_run (variant : string) (sx : list (string * jsvalue))
    (n : node) (children : react) (c : node) (v : jsstring) :
  first_content n = Some c -> text_run c v ->
  heading variant sx n children
  = Ok (RElement "Typography"
          ([("id", VStr (anchor v)); ("variant", VStr (js variant))] ++ sx)
          [children]).
Proof.
  intros Hc [Ht Hv]. unfold heading. rewrite Hc. simpl.
  by rewrite Ht, Hv.
Qed.

Lemma heading_fallback (variant : string) (sx : list (string * jsvalue))
    (n : node) (children : react) :
  (forall c v, first_content n = Some c -> ~ text_run c v) ->
  heading variant sx n children = Ok children.
Proof.
  intros H. unfold heading.
  destruct (first_content n) as [c|] eqn:Hc; [|done]. simpl.
  destruct (String.eqb_spec (nodeType c) "text") as [Ht|]; [|done].
  destruct (value c) as [v|] eqn:Hv; [|done].
  by destruct (H c v eq_refl).
Qed.

(** A heading handler has no error path. *)
Lemma heading_total (variant : string) (sx : list (string * jsvalue))
    (n : node) (children : react) :
  exists r, heading variant sx n children = Ok r.
Proof.
  unfold heading.
  destruct (is_text (first_content n)), (value_of (first_content n));
    eexists; reflexivity.
Qed.

(** C6. The handler of a heading of level 2 to 6 whose first child is a text
    run returns the heading element of that level with the anchor of the text
    as its [id]; when the first child is not a text run (or there is none) it
    returns the children as they are, without element or identifier. *)
Theorem heading_anchor (format : jsvalue -> outcome jsstring)
    (nt : string) (l : N) (h : handler) (n : node)
    (children : react) (m : gmap jsstring CategoryLink.t) :
  heading_level nt = Some l ->
  renderNode format nt = Some h ->
  (forall c v, first_content n = Some c -> text_run c v ->
     exists sx,
       h n children m
       = (Ok (RElement "Typography"
                ([("id", VStr (anchor v));
                  ("variant", VStr (js "h" ++ N_to_string l))] ++ sx)
                [children]), m))
  /\ ((forall c, first_content n = Some c -> nodeType c <> "text") ->
      h n children m = (Ok children, m)).
Proof.
  heading_level_cases nt.
  all: split;
    [ intros c v Hc Hrun; eexists; unfold lift;
      unfold renderNode_HEADING_2, renderNode_HEADING_3, renderNode_HEADING_4,
        renderNode_HEADING_5, renderNode_HEADING_6;
      rewrite (heading_text_run _ _ _ _ c v Hc Hrun); reflexivity
    | intros Hnot; unfold lift;
      unfold renderNode_HEADING_2, renderNode_HEADING_3, renderNode_HEADING_4,
        renderNode_HEADING_5, renderNode_HEADING_6;
      rewrite heading_fallback; [reflexivity|];
      intros c v Hc [Ht _]; exact (Hnot c Hc Ht) ].
Qed.

Lemma heading_anchor_witness :
  (exists sx,
     lift (renderNode_HEADING_2 Sample.intro RNull) ∅
     = (Ok (RElement "Typography"
              ([("id", VStr (anchor (js "Intro")));
                ("variant", VStr (js "h2"))] ++ sx) [RNull]), ∅))
  /\ lift (renderNode_HEADING_3 Sample.heading_entry_first RNull) ∅
     = (Ok RNull, ∅).
Proof.
  split.
  - exact (proj1 (heading_anchor Sample.format BLOCKS.HEADING_2 2 _
                    Sample.intro RNull ∅ eq_refl eq_refl)
             (text (js "Intro") []) (js "Intro") eq_refl
             (conj eq_refl eq_refl)).
  - apply (heading_anchor Sample.format BLOCKS.HEADING_3 3 _
             Sample.heading_entry_first RNull ∅ eq_refl eq_refl).
    intros c [= <-]. discriminate.
Defined.

(** ** The anchor in the renderer and in the table of contents *)

(** C1. The anchor is a function of the text alone, and both passes use it:
    for a heading of level 2 to 6 whose first child is a text run with value
    [s], the handler of the table returns an element whose [id] is
    [anchor s], and the table of contents lists the heading with the same
    [anchor s]. *)
Theorem anchor_consistent (format : jsvalue -> outcome jsstring)
    (l : N) (h : handler) (n : node) (children : react)
    (m : gmap jsstring CategoryLink.t) (c : node) (s : jsstring) :
  heading_level (nodeType n) = Some l ->
  renderNode format (nodeType n) = Some h ->
  first_content n = Some c ->
  text_run c s ->
  exists props,
    h n children m = (Ok (RElement "Typography" props [children]), m)
    /\ assoc "id" props = Some (VStr (anchor s))
    /\ toc_entry_of n = Some (TocEntry l s (anchor s)).
Proof.
  intros Hl Hh Hc Hrun.
  assert (Htoc : toc_entry_of n = Some (TocEntry l s (anchor s))).
  { unfold toc_entry_of. rewrite Hl, Hc.
    destruct Hrun as [-> ->]. reflexivity. }
  revert Hl Hh. generalize (nodeType n) as nt. intros nt.
  heading_level_cases nt.
  all: eexists; split; [|split; [|exact Htoc]];
    [ unfold lift, renderNode_HEADING_2, renderNode_HEADING_3,
        renderNode_HEADING_4, renderNode_HEADING_5, renderNode_HEADING_6;
      rewrite (heading_text_run _ _ _ _ c s Hc Hrun); reflexivity
    | reflexivity ].
Qed.

Lemma anchor_consistent_witness :
  exists props,
    lift (renderNode_HEADING_2 Sample.intro RNull) (categoryMap Sample.categories)
    = (Ok (RElement "Typography" props [RNull]), categoryMap Sample.categories)
    /\ assoc "id" props = Some (VStr (anchor (js "Intro")))
    /\ toc_entry_of Sample.intro
       = Some (TocEntry 2 (js "Intro") (anchor (js "Intro"))).
Proof.
  exact (anchor_consistent Sample.format 2 _ Sample.intro RNull
           (categoryMap Sample.categories) (text (js "Intro") []) (js "Intro")
           eq_refl eq_refl eq_refl (conj eq_refl eq_refl)).
Defined.

(** The identifier of the sample heading, as Node prints the digest. *)
Example anchor_Intro : anchor (js "Intro") = js "1cad35d4b3b9f624f82dbf237daaf188".
Proof. vm_compute. reflexivity. Qed.

(** A heading in Japanese is hashed through its UTF-8 bytes. *)
Example anchor_hajimeni :
  anchor [0x306f; 0x3058; 0x3081; 0x306b]
  = js "761a80f854fd45d3795d0b60c2d2553d".
Proof. vm_compute. reflexivity. Qed.

(** ** Paragraphs *)

(** A first child with the [code] mark: a preformatted block, whatever
    follows. *)
Lemma paragraph_code (n c : node) (rest : list node) (ms : list mark)
    (children : react) :
  content n = Some (c :: rest) ->
  marks c = Some ms ->
  Mark "code" ∈ ms ->
  renderNode_PARAGRAPH n children
  = Ok (RElement "div" []
          [RElement "pre" [] [RElement "code" [] [children]]]).
Proof.
  intros Hc Hms Hin. unfold renderNode_PARAGRAPH.
  rewrite (first_content_cons _ _ _ Hc). simpl. rewrite Hms. simpl.
  destruct (find _ ms) as [x|] eqn:Hfind; [done|].
  apply list_elem_of_In in Hin.
  by pose proof (find_none _ _ Hfind _ Hin).
Qed.

(** A first child that is a text node without the [code] mark: prose. *)
Lemma paragraph_prose (n c : node) (rest : list node) (ms : list mark)
    (children : react) :
  content n = Some (c :: rest) ->
  nodeType c = "text" ->
  marks c = Some ms ->
  Mark "code" ∉ ms ->
  renderNode_PARAGRAPH n children = Ok (RElement "Text" [] [children]).
Proof.
  intros Hc Ht Hms Hin. unfold renderNode_PARAGRAPH.
  rewrite (first_content_cons _ _ _ Hc). simpl. rewrite Hms, Ht. simpl.
  destruct (find _ ms) as [[t]|] eqn:Hfind; [|done].
  exfalso. apply Hin. apply find_some in Hfind as [Hx Heq].
  apply String.eqb_eq in Heq. simpl in Heq. subst t.
  by apply list_elem_of_In.
Qed.

(** Without children the handler reaches its last branch. *)
Lemma paragraph_empty (n : node) (children : react) :
  first_content n = None ->
  renderNode_PARAGRAPH n children = Ok (RElement "p" [] [children]).
Proof. intros H. unfold renderNode_PARAGRAPH. by rewrite H. Qed.

(** A first child that has no [marks], as every block and inline node of the
    document, stops the handler with a [TypeError]. *)
Lemma paragraph_without_marks (n c : node) (rest : list node)
    (children : react) :
  content n = Some (c :: rest) ->
  marks c = None ->
  renderNode_PARAGRAPH n children = Throw TypeError.
Proof.
  intros Hc Hms. unfold renderNode_PARAGRAPH.
  rewrite (first_content_cons _ _ _ Hc). simpl. by rewrite Hms.
Qed.

(** C2. Rendering a document whose one paragraph starts with a hyperlink
    stops with a [TypeError], whatever the date formatter and the renderers
    of the library are: the paragraph handler asks the link for [marks] and
    calls [find] on [undefined]. *)
Theorem paragraph_link_first_throws
    (format : jsvalue -> outcome jsstring)
    (defaultNodeRenderers : string -> option handler)
    (defaultMarkRenderers : string -> option (react -> outcome react))
    (m : gmap jsstring CategoryLink.t) :
  Article_contents format defaultNodeRenderers defaultMarkRenderers
    (Some (Sample.document [Sample.paragraph_link_first])) m
  = (Throw TypeError, m).
Proof. reflexivity. Qed.

(** C3. Of the three cases of the paragraph handler the first two are as
    described, a code block for a first child with the [code] mark and prose
    for a first child that is plain text, later children not looked at; a
    paragraph that starts with an inline entry does not become a [p] element
    but stops the handler with a [TypeError]. *)
Theorem paragraph_classification (children : react) :
  renderNode_PARAGRAPH Sample.paragraph_code children
  = Ok (RElement "div" []
          [RElement "pre" [] [RElement "code" [] [children]]])
  /\ renderNode_PARAGRAPH Sample.paragraph_prose children
     = Ok (RElement "Text" [] [children])
  /\ renderNode_PARAGRAPH Sample.paragraph_entry_first children
     = Throw TypeError.
Proof. repeat split; reflexivity. Qed.

(** ** Embedded assets *)

Lemma embedded_asset_render (n : node) (children : react)
    (fields url width height title description : jsvalue) :
  get_path (VObj (data n)) ["target"; "fields"] = Ok fields ->
  get_path fields ["file"; "url"] = Ok url ->
  get_path fields ["file"; "details"; "image"; "width"] = Ok width ->
  get_path fields ["file"; "details"; "image"; "height"] = Ok height ->
  get_path fields ["file"; "title"] = Ok title ->
  get_path fields ["description"] = Ok description ->
  renderNode_EMBEDDED_ASSET n children
  = Ok (asset_box
          [asset_image (to_string url) width height title;
           if strict_neq_str description [] then asset_caption description
           else RNull]).
Proof.
  intros Hf Hu Hw Hh Ht Hd. unfold renderNode_EMBEDDED_ASSET.
  rewrite Hf. simpl. rewrite Hu. simpl. rewrite Hw. simpl.
  rewrite Hh. simpl. rewrite Ht. simpl. rewrite Hd. reflexivity.
Qed.

(** C7. The caption of an embedded asset is as described: the second child
    of the box is [null] when the description is the empty string and the
    caption holding exactly the description when it is any other string,
    and the image has as source the URL of the file after ["https:"] and the
    width and height of the file's image.  The title is not used: the
    handler reads [alt] at [fields.file.title], and for an asset that has
    its title where the store keeps it, at [fields.title] next to [file],
    the image gets [undefined] as [alt], whatever the title is. *)
Theorem embedded_asset_title_unused (n : node) (children : react)
    (fields width height : jsvalue) (url title description : jsstring) :
  get_path (VObj (data n)) ["target"; "fields"] = Ok fields ->
  get_path fields ["title"] = Ok (VStr title) ->
  get_path fields ["description"] = Ok (VStr description) ->
  get_path fields ["file"; "url"] = Ok (VStr url) ->
  get_path fields ["file"; "details"; "image"; "width"] = Ok width ->
  get_path fields ["file"; "details"; "image"; "height"] = Ok height ->
  get_path fields ["file"; "title"] = Ok VUndefined ->
  (description = [] ->
   renderNode_EMBEDDED_ASSET n children
   = Ok (asset_box [asset_image url width height VUndefined; RNull]))
  /\ (description <> [] ->
      renderNode_EMBEDDED_ASSET n children
      = Ok (asset_box [asset_image url width height VUndefined;
                       asset_caption (VStr description)])).
Proof.
  intros Hf _ Hd Hu Hw Hh Ht.
  rewrite (embedded_asset_render _ _ _ _ _ _ _ _ Hf Hu Hw Hh Ht Hd).
  simpl. split; intros H.
  - by rewrite bool_decide_true.
  - by rewrite bool_decide_false.
Qed.

Lemma embedded_asset_title_unused_witness :
  renderNode_EMBEDDED_ASSET (Sample.photo []) RNull
  = Ok (asset_box
          [asset_image (js "//images.ctfassets.net/a.png") (VNum 640)
             (VNum 480) VUndefined; RNull])
  /\ renderNode_EMBEDDED_ASSET (Sample.photo (js "A photo")) RNull
     = Ok (asset_box
             [asset_image (js "//images.ctfassets.net/a.png") (VNum 640)
                (VNum 480) VUndefined;
              asset_caption (VStr (js "A photo"))]).
Proof.
  split.
  - exact (proj1 (embedded_asset_title_unused (Sample.photo []) RNull
                    _ _ _ _ (js "A picture") [] eq_refl eq_refl eq_refl
                    eq_refl eq_refl eq_refl eq_refl) eq_refl).
  - apply (embedded_asset_title_unused (Sample.photo (js "A photo")) RNull
             _ _ _ _ (js "A picture") (js "A photo") eq_refl eq_refl eq_refl
             eq_refl eq_refl eq_refl eq_refl).
    discriminate.
Defined.

(** C9. The caption is left out for the empty string only: an asset whose
    [description] is missing gets a caption element, with [undefined] as its
    content. *)
Theorem embedded_asset_undefined_description (n : node) (children : react)
    (fields url width height title : jsvalue) :
  get_path (VObj (data n)) ["target"; "fields"] = Ok fields ->
  get_path fields ["file"; "url"] = Ok url ->
  get_path fields ["file"; "details"; "image"; "width"] = Ok width ->
  get_path fields ["file"; "details"; "image"; "height"] = Ok height ->
  get_path fields ["file"; "title"] = Ok title ->
  get_path fields ["description"] = Ok VUndefined ->
  renderNode_EMBEDDED_ASSET n children
  = Ok (asset_box [asset_image (to_string url) width height title;
                   asset_caption VUndefined]).
Proof.
  intros Hf Hu Hw Hh Ht Hd.
  by rewrite (embedded_asset_render _ _ _ _ _ _ _ _ Hf Hu Hw Hh Ht Hd).
Qed.

Lemma embedded_asset_undefined_description_witness :
  renderNode_EMBEDDED_ASSET (Sample.embedded_asset []) RNull
  = Ok (asset_box
          [asset_image (js "//images.ctfassets.net/a.png") (VNum 640)
             (VNum 480) (VStr (js "A picture"));
           asset_caption VUndefined]).
Proof.
  exact (embedded_asset_undefined_description (Sample.embedded_asset []) RNull
           _ (VStr (js "//images.ctfassets.net/a.png")) _ _ _
           eq_refl eq_refl eq_refl eq_refl eq_refl eq_refl).
Defined.

(** ** Hyperlinks *)

Lemma classify_cases (uri : jsstring) :
  (exists videoId, classify uri = Video videoId) \/ classify uri = Generic.
Proof. unfold classify. destruct (is_video _); eauto. Qed.

Lemma hyperlink_video (n : node) (children : react) (uri : jsstring)
    (videoId : jsvalue) :
  nodeType n = INLINES.HYPERLINK ->
  string_uri n = Some uri ->
  classify uri = Video videoId ->
  renderNode_HYPERLINK n children = Ok (video_embed videoId).
Proof.
  intros Ht Hu. unfold renderNode_HYPERLINK, classify. rewrite Ht, Hu. simpl.
  destruct (is_video _); [|done]. by intros [= <-].
Qed.

Lemma hyperlink_generic (n : node) (children : react) (uri : jsstring) :
  nodeType n = INLINES.HYPERLINK ->
  string_uri n = Some uri ->
  classify uri = Generic ->
  renderNode_HYPERLINK n children
  = Ok (external_link uri (nullish (value_of (first_content n)) (VStr uri))).
Proof.
  intros Ht Hu. unfold renderNode_HYPERLINK, classify. rewrite Ht, Hu. simpl.
  by destruct (is_video _).
Qed.

Lemma hyperlink_without_uri (n : node) (children : react) :
  string_uri n = None ->
  renderNode_HYPERLINK n children = Ok children.
Proof.
  intros Hu. unfold renderNode_HYPERLINK. rewrite Hu.
  by destruct (String.eqb _ _).
Qed.

(** The hyperlink handler has no error path. *)
Lemma hyperlink_total (n : node) (children : react) :
  exists r, renderNode_HYPERLINK n children = Ok r.
Proof.
  unfold renderNode_HYPERLINK.
  destruct (String.eqb (nodeType n) INLINES.HYPERLINK), (string_uri n);
    try (eexists; reflexivity).
  destruct (is_video _); eexists; reflexivity.
Qed.

(** C8. A hyperlink whose URI is not a video link renders as an external
    link whose label is the value of its first text child, and the URI
    itself when it has no text child, its children being text runs as the
    document model has them; a hyperlink whose data has no string [uri]
    renders as its children, without a link element. *)
Theorem hyperlink_generic_label (n : node) (children : react) :
  nodeType n = INLINES.HYPERLINK ->
  (forall uri,
     string_uri n = Some uri -> classify uri = Generic -> text_children n ->
     renderNode_HYPERLINK n children
     = Ok (external_link uri (label_of_first_text_child n uri)))
  /\ (string_uri n = None -> renderNode_HYPERLINK n children = Ok children).
Proof.
  intros Ht. split; [|apply hyperlink_without_uri].
  intros uri Hu Hg Hkids. rewrite (hyperlink_generic _ _ uri Ht Hu Hg).
  do 2 f_equal.
  unfold label_of_first_text_child, first_text_child, first_content.
  unfold text_children in Hkids.
  destruct (content n) as [[|c rest]|]; simpl in *; try reflexivity.
  apply Forall_inv in Hkids as [v [Hc Hv]].
  rewrite Hc, Hv. simpl. by rewrite Hv.
Qed.

Lemma hyperlink_generic_label_witness :
  renderNode_HYPERLINK
    (Sample.hyperlink "https://example.com/page"
       [text (js "the page") []; text (js " itself") []]) RNull
  = Ok (external_link (js "https://example.com/page") (VStr (js "the page")))
  /\ renderNode_HYPERLINK (Sample.hyperlink "https://example.com/page" [])
       RNull
     = Ok (external_link (js "https://example.com/page")
             (VStr (js "https://example.com/page")))
  /\ renderNode_HYPERLINK
       (element INLINES.HYPERLINK [("uri", VNum 7)] [text (js "seven") []])
       (RArray [RText (js "seven")])
     = Ok (RArray [RText (js "seven")]).
Proof.
  split; [|split].
  - apply (proj1 (hyperlink_generic_label
                    (Sample.hyperlink "https://example.com/page"
                       [text (js "the page") []; text (js " itself") []])
                    RNull eq_refl)
             (js "https://example.com/page") eq_refl eq_refl).
    repeat constructor; eexists; split; reflexivity.
  - apply (proj1 (hyperlink_generic_label
                    (Sample.hyperlink "https://example.com/page" []) RNull
                    eq_refl)
             (js "https://example.com/page") eq_refl eq_refl).
    constructor.
  - exact (proj2 (hyperlink_generic_label
                    (element INLINES.HYPERLINK [("uri", VNum 7)]
                       [text (js "seven") []])
                    (RArray [RText (js "seven")]) eq_refl) eq_refl).
Defined.

(** C10. The label of an external link comes from the first child alone: when
    that child has no [value] the URI is the label, whatever the later
    children are.  And a heading whose first child is a text node without a
    [value] is rendered as its children, like a heading that starts with
    another kind of node. *)
Theorem first_child_without_value :
  (forall (n : node) (children : react) (uri : jsstring) (c : node)
          (rest : list node),
     nodeType n = INLINES.HYPERLINK ->
     string_uri n = Some uri ->
     classify uri = Generic ->
     content n = Some (c :: rest) ->
     value c = None ->
     renderNode_HYPERLINK n children = Ok (external_link uri (VStr uri)))
  /\ (forall (format : jsvalue -> outcome jsstring) (nt : string) (l : N)
             (h : handler) (n : node) (children : react)
             (m : gmap jsstring CategoryLink.t) (c : node),
        heading_level nt = Some l ->
        renderNode format nt = Some h ->
        first_content n = Some c ->
        nodeType c = "text" ->
        value c = None ->
        h n children m = (Ok children, m)).
Proof.
  split.
  - intros n children uri c rest Ht Hu Hg Hc Hv.
    rewrite (hyperlink_generic _ _ uri Ht Hu Hg).
    rewrite (first_content_cons _ _ _ Hc). simpl. by rewrite Hv.
  - intros format nt l h n children m c Hl Hh Hc Ht Hv. revert Hl Hh.
    heading_level_cases nt.
    all: unfold lift, renderNode_HEADING_2, renderNode_HEADING_3,
           renderNode_HEADING_4, renderNode_HEADING_5, renderNode_HEADING_6;
         rewrite heading_fallback; [reflexivity|];
         intros c' v Hc' [_ Hv']; congruence.
Qed.

Lemma first_child_without_value_witness :
  renderNode_HYPERLINK
    (Sample.hyperlink "https://example.com/page"
       [Sample.inline_entry; text (js "the page") []]) RNull
  = Ok (external_link (js "https://example.com/page")
          (VStr (js "https://example.com/page")))
  /\ lift (renderNode_HEADING_2 Sample.heading_without_value RNull) ∅
     = (Ok RNull, ∅).
Proof.
  split.
  - exact (proj1 first_child_without_value
             (Sample.hyperlink "https://example.com/page"
                [Sample.inline_entry; text (js "the page") []])
             RNull (js "https://example.com/page") Sample.inline_entry
             [text (js "the page") []] eq_refl eq_refl eq_refl eq_refl
             eq_refl).
  - exact (proj2 first_child_without_value Sample.format BLOCKS.HEADING_2 2 _
             Sample.heading_without_value RNull ∅
             (Node "text" [] None (Some []) None)
             eq_refl eq_refl eq_refl eq_refl eq_refl).
Defined.

(** ** The video link pattern *)

Lemma run_le (s : jsstring) : (RegExp.run s <= length s)%nat.
Proof.
  induction s as [|c s IH]; simpl; [lia|]. destruct (RegExp.dot c); lia.
Qed.

Lemma run_one_line (s : jsstring) :
  RegExp.run s = length s <-> one_line s.
Proof.
  unfold one_line. induction s as [|c s IH]; simpl; [done|].
  destruct (RegExp.dot c); simpl.
  - rewrite <- IH. split; lia.
  - split; [lia|discriminate].
Qed.

(** Below the length of the input the end assertion fails at every try. *)
Lemma longest_first_short (s : jsstring) (n : nat) :
  (n < length s)%nat ->
  RegExp.longest_first
    (fun rest g => RegExp.match_here [RegExp.EndOfInput] rest (VStr g)) s n
  = None.
Proof.
  induction n as [|n IH]; intros Hn; [done|]. simpl.
  destruct (drop (S n) s) as [|x rest] eqn:Hdrop.
  - apply (f_equal length) in Hdrop. rewrite length_drop in Hdrop.
    simpl in Hdrop. lia.
  - apply IH. lia.
Qed.

(** [(.+)$] takes the whole rest of the input, which must be one line and
    not empty. *)
Lemma match_here_capture_end (s : jsstring) (cap : jsvalue) :
  RegExp.match_here [RegExp.CaptureAnyPlus; RegExp.EndOfInput] s cap
  = if bool_decide (s <> [] /\ one_line s) then Some ([], VStr s) else None.
Proof.
  simpl. case_bool_decide as H.
  - destruct H as [Hne Hline]. apply run_one_line in Hline. rewrite Hline.
    destruct (length s) as [|n] eqn:Hlen; [by destruct s|].
    cbn [RegExp.longest_first]. rewrite <- Hlen, drop_all, firstn_all.
    reflexivity.
  - destruct (decide (RegExp.run s = length s)) as [Hrun|Hrun].
    + destruct s as [|c s]; [done|]. exfalso. apply H.
      split; [done|]. by apply run_one_line.
    + apply longest_first_short. pose proof (run_le s). lia.
Qed.

Lemma match_here_Char (c : N) (p : list RegExp.atom) (s : jsstring)
    (cap : jsvalue) (r : jsstring * jsvalue) :
  RegExp.match_here (RegExp.Char c :: p) s cap = Some r ->
  exists s', s = c :: s' /\ RegExp.match_here p s' cap = Some r.
Proof.
  destruct s as [|x s']; simpl; [done|].
  destruct (N.eqb_spec x c) as [->|]; [|done]. eauto.
Qed.

Lemma match_here_AnyChar (p : list RegExp.atom) (s : jsstring)
    (cap : jsvalue) (r : jsstring * jsvalue) :
  RegExp.match_here (RegExp.AnyChar :: p) s cap = Some r ->
  exists x s', s = x :: s' /\ RegExp.dot x = true
               /\ RegExp.match_here p s' cap = Some r.
Proof.
  destruct s as [|x s']; simpl; [done|].
  destruct (RegExp.dot x) eqn:Hx; [|done]. eauto.
Qed.

Lemma match_here_Char_eq (c : N) (p : list RegExp.atom) (s : jsstring)
    (cap : jsvalue) :
  RegExp.match_here (RegExp.Char c :: p) (c :: s) cap
  = RegExp.match_here p s cap.
Proof. simpl. by rewrite N.eqb_refl. Qed.

Lemma match_here_AnyChar_eq (x : N) (p : list RegExp.atom) (s : jsstring)
    (cap : jsvalue) :
  RegExp.dot x = true ->
  RegExp.match_here (RegExp.AnyChar :: p) (x :: s) cap
  = RegExp.match_here p s cap.
Proof. intros H. simpl. by rewrite H. Qed.

Lemma youtubeRe_atoms :
  youtubeRe
  = [RegExp.Char 47; RegExp.Char 121; RegExp.Char 111; RegExp.Char 117;
     RegExp.Char 116; RegExp.Char 117; RegExp.AnyChar; RegExp.Char 98;
     RegExp.Char 101; RegExp.Char 47; RegExp.CaptureAnyPlus;
     RegExp.EndOfInput].
Proof. reflexivity. Qed.

(** The text the pattern matches at the front of the input: ["/youtu"], one
    code unit that is no line terminator, ["be/"] and a rest of one line that
    is not empty and is the capture. *)
Lemma match_here_youtubeRe_inv (s rest : jsstring) (cap : jsvalue) :
  RegExp.match_here youtubeRe s VUndefined = Some (rest, cap) ->
  exists c g,
    s = js "/youtu" ++ c :: js "be/" ++ g /\ RegExp.dot c = true
    /\ g <> [] /\ one_line g /\ rest = [] /\ cap = VStr g.
Proof.
  rewrite youtubeRe_atoms. intros H.
  do 6 apply match_here_Char in H as (? & -> & H).
  apply match_here_AnyChar in H as (c & ? & -> & Hc & H).
  do 3 apply match_here_Char in H as (? & -> & H).
  rewrite match_here_capture_end in H.
  case_bool_decide as Hg; [|done]. destruct Hg as [Hne Hline].
  injection H as <- <-. exists c. eexists. repeat split; done.
Qed.

Lemma match_here_youtubeRe_intro (c : N) (g : jsstring) :
  RegExp.dot c = true -> g <> [] -> one_line g ->
  RegExp.match_here youtubeRe (js "/youtu" ++ c :: js "be/" ++ g) VUndefined
  = Some ([], VStr g).
Proof.
  intros Hc Hne Hline. rewrite youtubeRe_atoms.
  change (js "/youtu" ++ c :: js "be/" ++ g)
    with (47 :: 121 :: 111 :: 117 :: 116 :: 117 :: c :: 98 :: 101 :: 47 :: g).
  rewrite !match_here_Char_eq, (match_here_AnyChar_eq _ _ _ _ Hc).
  rewrite !match_here_Char_eq, match_here_capture_end.
  by rewrite bool_decide_true.
Qed.

Lemma String_match_here (re : list RegExp.atom) (s rest : jsstring)
    (cap : jsvalue) :
  RegExp.match_here re s VUndefined = Some (rest, cap) ->
  RegExp.String_match re s
  = Some [VStr (take (length s - length rest) s); cap].
Proof. intros H. destruct s; simpl; by rewrite H. Qed.

Lemma String_match_skip (re : list RegExp.atom) (x : N) (s : jsstring) :
  RegExp.match_here re (x :: s) VUndefined = None ->
  RegExp.String_match re (x :: s) = RegExp.String_match re s.
Proof. intros H. simpl. by rewrite H. Qed.

Lemma classify_match (uri : jsstring) (whole cap : jsvalue) :
  RegExp.String_match youtubeRe uri = Some [whole; cap] ->
  classify uri = Video cap.
Proof. intros H. unfold classify. by rewrite H. Qed.

Lemma classify_no_match (uri : jsstring) :
  RegExp.String_match youtubeRe uri = None -> classify uri = Generic.
Proof. intros H. unfold classify. by rewrite H. Qed.

(** Every video link holds the text the pattern describes, and the id is
    what follows it. *)
Lemma classify_video_inv (uri : jsstring) (videoId : jsvalue) :
  classify uri = Video videoId ->
  exists p c g,
    uri = p ++ js "/youtu" ++ c :: js "be/" ++ g /\ RegExp.dot c = true
    /\ g <> [] /\ one_line g /\ videoId = VStr g.
Proof.
  unfold classify.
  destruct (RegExp.String_match youtubeRe uri) as [arr|] eqn:Hm; [|done].
  intros Hv. assert (Harr : exists whole, arr = [whole; videoId]).
  { revert Hm Hv. clear. revert arr.
    induction uri as [|x uri IH]; intros arr; cbn [RegExp.String_match];
      destruct (RegExp.match_here youtubeRe _ VUndefined) as [[rest cap]|];
      try done.
    - intros [= <-] [= <-]. eauto.
    - intros [= <-] [= <-]. eauto.
    - apply IH. }
  destruct Harr as [whole ->]. clear Hv. revert Hm.
  induction uri as [|x uri IH]; cbn [RegExp.String_match];
    destruct (RegExp.match_here youtubeRe _ VUndefined) as [[rest cap]|]
      eqn:Hhere; try done.
  - apply match_here_youtubeRe_inv in Hhere
      as (c & g & Hs & Hc & Hne & Hl & _ & ->).
    intros [= _ <-]. by exists [], c, g.
  - intros Hm. destruct (IH Hm) as (p & c & g & -> & H).
    by exists (x :: p), c, g.
Qed.

(** A URI that ends in ["/youtu.be/"] and an id of one line is a video link;
    the id taken from it ends with this id. *)
Lemma classify_short_link (p videoId : jsstring) :
  videoId <> [] -> one_line videoId ->
  exists q, classify (p ++ js "/youtu.be/" ++ videoId)
            = Video (VStr (q ++ videoId)).
Proof.
  intros Hne Hline. induction p as [|x p IH].
  - exists []. eapply classify_match, String_match_here.
    by apply (match_here_youtubeRe_intro 46).
  - destruct (RegExp.match_here youtubeRe
                ((x :: p) ++ js "/youtu.be/" ++ videoId) VUndefined)
      as [[rest cap]|] eqn:Hhere.
    + pose proof Hhere as Hinv.
      apply match_here_youtubeRe_inv in Hinv
        as (c & g & Hs & _ & _ & _ & _ & ->).
      exists (drop 10 ((x :: p) ++ js "/youtu.be/")).
      erewrite classify_match; [|by apply String_match_here].
      do 2 f_equal.
      apply (f_equal (drop 10)) in Hs.
      change (drop 10 (js "/youtu" ++ c :: js "be/" ++ g)) with g in Hs.
      rewrite <- Hs, (app_assoc (x :: p)). apply drop_app_le.
      rewrite length_app. simpl. lia.
    + destruct IH as [q IH]. exists q. rewrite <- IH.
      unfold classify. simpl app. by rewrite String_match_skip.
Qed.

(** Without ["/youtu"] in it a URI is no video link. *)
Lemma classify_without_youtu (uri : jsstring) :
  ~ occurs (js "/youtu") uri -> classify uri = Generic.
Proof.
  intros Hno. apply classify_no_match.
  assert (Hhere : forall s, ~ occurs (js "/youtu") s ->
            RegExp.match_here youtubeRe s VUndefined = None).
  { intros s Hs.
    destruct (RegExp.match_here youtubeRe s VUndefined) as [[rest cap]|]
      eqn:Hhere; [|done].
    apply match_here_youtubeRe_inv in Hhere as (c & g & -> & _).
    destruct Hs. exists [], (c :: js "be/" ++ g). reflexivity. }
  induction uri as [|x uri IH].
  - cbn [RegExp.String_match]. by rewrite Hhere.
  - rewrite String_match_skip by by apply Hhere.
    apply IH. intros (a & b & ->). apply Hno. by exists (x :: a), b.
Qed.

(** A short link on the video host itself gives exactly its id. *)
Lemma classify_youtu_be (videoId : jsstring) :
  videoId <> [] -> one_line videoId ->
  classify (js "https://youtu.be/" ++ videoId) = Video (VStr videoId).
Proof.
  intros Hne Hline.
  change (js "https://youtu.be/" ++ videoId)
    with (104 :: 116 :: 116 :: 112 :: 115 :: 58 :: 47
            :: js "/youtu" ++ 46 :: js "be/" ++ videoId).
  unfold classify. do 7 (rewrite String_match_skip by reflexivity).
  fold (classify (js "/youtu" ++ 46 :: js "be/" ++ videoId)).
  eapply classify_match, String_match_here.
  by apply match_here_youtubeRe_intro.
Qed.

(** The dot of the pattern is not escaped: any code unit but a line
    terminator may stand between ["youtu"] and ["be"]. *)
Example classify_any_character :
  classify (js "https://example.com/youtuXbe/abc") = Video (VStr (js "abc")).
Proof. reflexivity. Qed.

(** Without an id, and with a line break after the id, the link is a generic
    one. *)
Example classify_without_id :
  classify (js "https://youtu.be/") = Generic
  /\ classify (js "https://youtu.be/abc" ++ [10]) = Generic.
Proof. split; reflexivity. Qed.

(** C5, as the handler has it.  The test is on the text of the URI, not on
    its host: every URI is either a video link or a generic one and the
    handler returns the video embed for the first and the external link for
    the second, without an error; a URI that ends in ["/youtu.be/"] and an id
    of one line is a video link on whatever host, and
    ["https://youtu.be/" ++ id] gives exactly [id]; a URI without ["/youtu"]
    in it is generic. *)
Theorem link_classification :
  (forall (n : node) (children : react) (uri : jsstring),
     nodeType n = INLINES.HYPERLINK ->
     string_uri n = Some uri ->
     match classify uri with
     | Video videoId =>
         renderNode_HYPERLINK n children = Ok (video_embed videoId)
     | Generic =>
         renderNode_HYPERLINK n children
         = Ok (external_link uri
                 (nullish (value_of (first_content n)) (VStr uri)))
     end)
  /\ (forall p videoId : jsstring,
        videoId <> [] -> one_line videoId ->
        exists q, classify (p ++ js "/youtu.be/" ++ videoId)
                  = Video (VStr (q ++ videoId)))
  /\ (forall videoId : jsstring,
        videoId <> [] -> one_line videoId ->
        classify (js "https://youtu.be/" ++ videoId) = Video (VStr videoId))
  /\ (forall uri : jsstring,
        ~ occurs (js "/youtu") uri -> classify uri = Generic)
  /\ classify (js "https://youtu.be/abc123") = Video (VStr (js "abc123"))
  /\ classify (js "https://example.com/page") = Generic.
Proof.
  split; [|split; [|split; [|split; [|split]]]].
  - intros n children uri Ht Hu.
    destruct (classify uri) as [videoId|] eqn:Hk.
    + by apply (hyperlink_video _ _ uri).
    + by apply hyperlink_generic.
  - apply classify_short_link.
  - apply classify_youtu_be.
  - apply classify_without_youtu.
  - reflexivity.
  - reflexivity.
Qed.

Lemma link_classification_witness :
  renderNode_HYPERLINK
    (Sample.hyperlink "https://youtu.be/xyz" [text (js "Watch") []]) RNull
  = Ok (video_embed (VStr (js "xyz")))
  /\ (exists q, classify (js "https://example.com/youtu.be/abc")
                = Video (VStr (q ++ js "abc")))
  /\ classify (js "https://youtu.be/abc123") = Video (VStr (js "abc123")).
Proof.
  destruct link_classification as (Hh & Hp & Hid & _).
  split; [|split].
  - exact (Hh (Sample.hyperlink "https://youtu.be/xyz" [text (js "Watch") []])
             RNull (js "https://youtu.be/xyz") eq_refl eq_refl).
  - apply (Hp (js "https://example.com") (js "abc")); [discriminate|reflexivity].
  - apply (Hid (js "abc123")); [discriminate|reflexivity].
Defined.

(** C5, as stated, fails: the video branch is taken for a URI whose host is
    another one. *)
Lemma video_link_on_another_host :
  classify (js "https://example.com/youtu.be/abc") = Video (VStr (js "abc"))
  /\ renderNode_HYPERLINK
       (Sample.hyperlink "https://example.com/youtu.be/abc"
          [text (js "abc") []]) RNull
     = Ok (video_embed (VStr (js "abc")))
  /\ host (js "https://example.com/youtu.be/abc") = Some (js "example.com")
  /\ host (js "https://example.com/youtu.be/abc") <> Some (js "youtu.be").
Proof. repeat split; try reflexivity. discriminate. Qed.

(** ** The two passes over a document *)

(** A handler of the table that is not a heading handler returns nothing
    that carries a heading identifier. *)
Lemma handler_without_heading_id (format : jsvalue -> outcome jsstring)
    (nt : string) (h : handler) (n : node) (children : list react)
    (m m' : gmap jsstring CategoryLink.t) (r : react) :
  renderNode format nt = Some h ->
  heading_level nt = None ->
  h n (RArray children) m = (Ok r, m') ->
  heading_id r = None.
Proof.
  unfold renderNode, heading_level.
  repeat match goal with
    | |- context [String.eqb nt ?s] =>
        destruct (String.eqb_spec nt s) as [->|_]; [intros [= <-]|]
    end; try discriminate; intros _.
  all: unfold lift, renderNode_PARAGRAPH, renderNode_EMBEDDED_ASSET,
         renderNode_EMBEDDED_ENTRY, renderNode_INLINE_EMBEDDED_ENTRY,
         renderNode_HYPERLINK, categoryMap_path;
       unfold mbind, M_bind, outcome_bind, mret, M_ret;
       intros H; repeat case_match; by simplify_eq.
Qed.

(** For a heading the identifier on the output is the anchor the table of
    contents lists, and there is none where the table of contents skips the
    heading. *)
Lemma heading_id_toc (format : jsvalue -> outcome jsstring)
    (l : N) (h : handler) (n : node) (children : list react)
    (m m' : gmap jsstring CategoryLink.t) (r : react) :
  renderNode format (nodeType n) = Some h ->
  heading_level (nodeType n) = Some l ->
  h n (RArray children) m = (Ok r, m') ->
  heading_id r = (fun e => VStr (toc_anchor e)) <$> toc_entry_of n.
Proof.
  intros Hh Hl. unfold toc_entry_of. rewrite Hl. revert Hh Hl.
  generalize (nodeType n) as nt. intros nt. heading_level_cases nt.
  all: unfold lift, renderNode_HEADING_2, renderNode_HEADING_3,
         renderNode_HEADING_4, renderNode_HEADING_5, renderNode_HEADING_6,
         heading, is_text, value_of;
       destruct (first_content n) as [c|]; [|by intros [= <- <-]];
       destruct (String.eqb (nodeType c) "text"); [|by intros [= <- <-]];
       destruct (value c); by intros [= <- <-].
Qed.

(** The walk, with its loop by name. *)
Lemma nodeToReactComponent_eq (format : jsvalue -> outcome jsstring)
    (defaultNodeRenderers : string -> option handler)
    (defaultMarkRenderers : string -> option (react -> outcome react))
    (n : node) :
  nodeToReactComponent format defaultNodeRenderers defaultMarkRenderers n
  = if String.eqb (nodeType n) "text"
    then lift (textToReactComponent defaultMarkRenderers n)
    else
      children ←
        match content n with
        | Some nodes =>
            nodeListToReactComponents format defaultNodeRenderers
              defaultMarkRenderers nodes
        | None => lift (Throw TypeError)
        end;
      match (if String.eqb (nodeType n) "" then None
             else options_renderNode format defaultNodeRenderers (nodeType n))
      with
      | Some h => h n (RArray children)
      | None => mret (RElement "Fragment" [] [RArray children])
      end.
Proof. destruct n. reflexivity. Qed.

(** The blocks of a document that the table handles: after a rendering that
    does not throw, the identifiers on the output are, in order, the anchors
    of the table of contents. *)
Lemma toc_agrees_with_rendering (format : jsvalue -> outcome jsstring)
    (defaultNodeRenderers : string -> option handler)
    (defaultMarkRenderers : string -> option (react -> outcome react))
    (blocks : list node) (m m' : gmap jsstring CategoryLink.t)
    (outs : list react) :
  Forall (fun b => is_Some (renderNode format (nodeType b))) blocks ->
  nodeListToReactComponents format defaultNodeRenderers defaultMarkRenderers
    blocks m = (Ok outs, m') ->
  omap heading_id outs
  = map (fun e => VStr (toc_anchor e)) (omap toc_entry_of blocks).
Proof.
  intros Hblocks. revert m m' outs.
  induction Hblocks as [|b blocks [h Hh] _ IH]; intros m m' outs.
  - by intros [= <- <-].
  - cbn [nodeListToReactComponents]. unfold mbind at 1, M_bind at 1.
    destruct (nodeToReactComponent _ _ _ b m) as [[r|e] m1] eqn:Hr; [|done].
    unfold mbind at 1, M_bind at 1.
    destruct (nodeListToReactComponents _ _ _ blocks m1) as [[rs|e] m2]
      eqn:Hrs; [|done].
    intros [= <- <-]. specialize (IH _ _ _ Hrs).
    assert (Hid : heading_id r
                  = (fun e => VStr (toc_anchor e)) <$> toc_entry_of b).
    { rewrite nodeToReactComponent_eq in Hr.
      destruct (String.eqb_spec (nodeType b) "text") as [Ht|_];
        [by rewrite Ht in Hh|].
      revert Hr. unfold mbind at 1, M_bind at 1.
      match goal with
      | |- context [let (_, _) := ?x in _] =>
          destruct x as [[children|e] m0]; [|done]
      end.
      unfold options_renderNode. rewrite Hh.
      destruct (String.eqb_spec (nodeType b) "") as [Ht|_];
        [by rewrite Ht in Hh|].
      intros Hr. destruct (heading_level (nodeType b)) as [l|] eqn:Hl.
      - by apply (heading_id_toc format l h _ children m0 m1).
      - rewrite (handler_without_heading_id format _ h _ children m0 m1 r)
          by done.
        unfold toc_entry_of. by rewrite Hl. }
    simpl. rewrite Hid.
    destruct (toc_entry_of b); simpl; [f_equal|]; exact IH.
Qed.

(** The same for the article: with the library's renderer of the document
    node, which returns the children, the rendered blocks carry the anchors
    of the table of contents. *)
Lemma Article_toc_agrees (format : jsvalue -> outcome jsstring)
    (defaultNodeRenderers : string -> option handler)
    (defaultMarkRenderers : string -> option (react -> outcome react))
    (document : node) (blocks : list node)
    (m m' : gmap jsstring CategoryLink.t) (r : react) :
  nodeType document = BLOCKS.DOCUMENT ->
  content document = Some blocks ->
  defaultNodeRenderers BLOCKS.DOCUMENT = Some (fun _ children => mret children) ->
  Forall (fun b => is_Some (renderNode format (nodeType b))) blocks ->
  Article_contents format defaultNodeRenderers defaultMarkRenderers
    (Some document) m = (Ok r, m') ->
  exists outs,
    r = RArray outs
    /\ omap heading_id outs
       = map (fun e => VStr (toc_anchor e)) (TableOfContents (Some document)).
Proof.
  intros Ht Hc Hdoc Hblocks. unfold Article_contents, TableOfContents.
  rewrite nodeToReactComponent_eq, Ht, Hc. simpl default.
  change (String.eqb BLOCKS.DOCUMENT "text") with false.
  change (String.eqb BLOCKS.DOCUMENT "") with false.
  unfold options_renderNode.
  change (renderNode format BLOCKS.DOCUMENT) with (@None handler).
  rewrite Hdoc. unfold mbind, M_bind.
  destruct (nodeListToReactComponents _ _ _ blocks m) as [[outs|e] m0]
    eqn:Houts; [|done].
  intros [= <- <-]. exists outs. split; [done|].
  by apply (toc_agrees_with_rendering _ _ _ _ _ _ _ Hblocks Houts).
Qed.

(** ** Documents that render

    Apart from a paragraph that starts with something else than a text run,
    the documents of the model, with strings for the URL of an asset and for
    the category id and slug of an entry, render without an exception and
    leave the category map alone. *)

Section Renders.

Variable format : jsvalue -> outcome jsstring.
Variable defaultNodeRenderers : string -> option handler.
Variable defaultMarkRenderers : string -> option (react -> outcome react).

(** The types of the marks that the text runs carry. *)
Variable known : string -> Prop.

(** The renderer that the library has for the document node neither throws
    nor writes to the map. *)
Hypothesis document_renderer_returns :
  forall h, defaultNodeRenderers BLOCKS.DOCUMENT = Some h ->
  forall n c m, exists r, h n c m = (Ok r, m).

(** What the library holds under the type of such a mark is a function that
    returns. *)
Hypothesis mark_renderers_return :
  forall t f, known t -> defaultMarkRenderers t = Some f ->
  forall value, returns (f value).

Let render := nodeToReactComponent format defaultNodeRenderers
                defaultMarkRenderers.
Let render_list := nodeListToReactComponents format defaultNodeRenderers
                     defaultMarkRenderers.

Lemma nodeList_renders (P : node -> Prop) (nodes : list node) :
  (forall n, P n -> forall m, exists r, render n m = (Ok r, m)) ->
  Forall P nodes ->
  forall m, exists rs, render_list nodes m = (Ok rs, m).
Proof.
  intros HP Hnodes m. induction Hnodes as [|x nodes Hx _ [rs IH]].
  - by exists [].
  - destruct (HP x Hx m) as [r Hr]. exists (r :: rs).
    unfold render_list in *. cbn [nodeListToReactComponents].
    unfold mbind, M_bind. fold render. by rewrite Hr, IH.
Qed.

Lemma marks_render (ms : list mark) :
  Forall (fun mk => known (type mk)) ms ->
  forall value,
    returns
      (foldl (fun acc mk =>
                value ← acc;
                match defaultMarkRenderers (type mk) with
                | Some f => f value
                | None => Ok value
                end) (Ok value) ms).
Proof.
  induction 1 as [|mk ms Hmk _ IH]; intros value; [by exists value|].
  cbn [foldl]. unfold mbind at 2, outcome_bind.
  destruct (defaultMarkRenderers (type mk)) as [f|] eqn:Hf; [|apply IH].
  destruct (mark_renderers_return _ _ Hmk Hf value) as [r ->]. apply IH.
Qed.

Lemma text_renders (n : node) :
  text_node known n -> forall m, exists r, render n m = (Ok r, m).
Proof.
  intros [d ms v Hms] m. unfold render. rewrite nodeToReactComponent_eq.
  simpl. unfold lift, textToReactComponent. simpl.
  destruct (marks_render ms Hms (RValue (VStr v))) as [r ->]. eauto.
Qed.

(** A node with children: once they are rendered, the handler decides. *)
Lemma element_renders (nt : string) (d : list (string * jsvalue))
    (children : list node) (h : handler)
    (m : gmap jsstring CategoryLink.t) (rs : list react) :
  String.eqb nt "text" = false ->
  String.eqb nt "" = false ->
  options_renderNode format defaultNodeRenderers nt = Some h ->
  render_list children m = (Ok rs, m) ->
  render (element nt d children) m
  = h (element nt d children) (RArray rs) m.
Proof.
  intros Htext Hempty Hh Hrs. unfold render, render_list in *.
  rewrite nodeToReactComponent_eq. simpl. rewrite Htext, Hempty, Hh.
  unfold mbind, M_bind. by rewrite Hrs.
Qed.

Lemma inline_entry_total (d : list (string * jsvalue)) (n : node)
    (c : react) (m : gmap jsstring CategoryLink.t) (with_date : bool) :
  entry_ok format with_date d -> data n = d ->
  exists r, renderNode_INLINE_EMBEDDED_ENTRY n c m = (Ok r, m).
Proof.
  intros ([t Ht] & (i & Hi & _) & (sl & Hs & _) & _) <-.
  unfold renderNode_INLINE_EMBEDDED_ENTRY.
  unfold mbind, M_bind, lift, categoryMap_path, mret, M_ret.
  rewrite Ht, Hi, Hs. destruct (m !! _); eauto.
Qed.

Lemma block_entry_total (d : list (string * jsvalue)) (n : node)
    (c : react) (m : gmap jsstring CategoryLink.t) :
  entry_ok format true d -> data n = d ->
  exists r, renderNode_EMBEDDED_ENTRY format n c m = (Ok r, m).
Proof.
  intros ([t Ht] & (i & Hi & _) & (sl & Hs & _) & Hdate) <-.
  destruct (Hdate eq_refl) as (createdAt & Hc & [date Hd]).
  unfold renderNode_EMBEDDED_ENTRY.
  unfold mbind, M_bind, lift, categoryMap_path, mret, M_ret.
  rewrite Ht, Hi, Hs. destruct (m !! _); rewrite Hc, Hd; eauto.
Qed.

Lemma asset_total (d : list (string * jsvalue)) (n : node) (c : react) :
  asset_ok d -> data n = d ->
  exists r, renderNode_EMBEDDED_ASSET n c = Ok r.
Proof.
  intros (fields & Hf & (u & Hu & _) & [w Hw] & [h Hh] & [t Ht] & [de Hde])
    <-.
  rewrite (embedded_asset_render _ _ _ _ _ _ _ _ Hf Hu Hw Hh Ht Hde). eauto.
Qed.

Lemma paragraph_total (d : list (string * jsvalue)) (children : list node)
    (c : react) :
  (forall x, head children = Some x -> text_node known x) ->
  exists r, renderNode_PARAGRAPH (element BLOCKS.PARAGRAPH d children) c = Ok r.
Proof.
  intros Hfirst. unfold renderNode_PARAGRAPH, first_content. simpl.
  destruct children as [|x rest]; simpl; [eauto|].
  destruct (Hfirst x eq_refl) as [dx ms v _]. simpl.
  destruct (find _ ms); eauto.
Qed.

Lemma inline_renders (n : node) :
  inline_node format known n -> forall m, exists r, render n m = (Ok r, m).
Proof.
  intros [n' Ht|d children Hkids|d Hentry] m.
  - by apply text_renders.
  - destruct (nodeList_renders (text_node known) children text_renders
                Hkids m) as [rs Hrs].
    rewrite (element_renders INLINES.HYPERLINK d children _ m rs
               eq_refl eq_refl eq_refl Hrs).
    unfold lift.
    destruct (hyperlink_total (element INLINES.HYPERLINK d children)
                (RArray rs)) as [r ->].
    eauto.
  - rewrite (element_renders INLINES.EMBEDDED_ENTRY d [] _ m []
               eq_refl eq_refl eq_refl eq_refl).
    by apply (inline_entry_total d _ _ _ false).
Qed.

Lemma block_renders (n : node) :
  block_node format known n -> forall m, exists r, render n m = (Ok r, m).
Proof.
  intros [nt l d children Hl Hkids|d children Hkids Hfirst|d Hasset|d Hentry] m.
  - destruct (nodeList_renders _ children inline_renders Hkids m)
      as [rs Hrs].
    assert (Hh : exists variant sx,
               String.eqb nt "text" = false /\ String.eqb nt "" = false
               /\ options_renderNode format defaultNodeRenderers nt
                  = Some (fun n c => lift (heading variant sx n c))).
    { unfold options_renderNode. revert Hl. unfold heading_level, renderNode.
      repeat match goal with
        | |- context [String.eqb nt ?s] =>
            destruct (String.eqb_spec nt s) as [->|_];
            [intros _; do 2 eexists; repeat split; reflexivity|]
        end.
      discriminate. }
    destruct Hh as (variant & sx & Htext & Hempty & Hh).
    rewrite (element_renders _ _ _ _ _ _ Htext Hempty Hh Hrs). unfold lift.
    destruct (heading_total variant sx (element nt d children) (RArray rs))
      as [r ->].
    eauto.
  - destruct (nodeList_renders _ children inline_renders Hkids m)
      as [rs Hrs].
    rewrite (element_renders BLOCKS.PARAGRAPH d children _ m rs
               eq_refl eq_refl eq_refl Hrs).
    unfold lift.
    destruct (paragraph_total d children (RArray rs) Hfirst) as [r ->].
    eauto.
  - rewrite (element_renders BLOCKS.EMBEDDED_ASSET d [] _ m []
               eq_refl eq_refl eq_refl eq_refl).
    unfold lift.
    destruct (asset_total d (element BLOCKS.EMBEDDED_ASSET d []) (RArray [])
                Hasset eq_refl) as [r ->].
    eauto.
  - rewrite (element_renders BLOCKS.EMBEDDED_ENTRY d [] _ m []
               eq_refl eq_refl eq_refl eq_refl).
    by apply (block_entry_total d).
Qed.

(** A document of such blocks renders, and the category map is as before. *)
Theorem document_renders (d : list (string * jsvalue)) (blocks : list node)
    (m : gmap jsstring CategoryLink.t) :
  Forall (block_node format known) blocks ->
  exists r,
    Article_contents format defaultNodeRenderers defaultMarkRenderers
      (Some (element BLOCKS.DOCUMENT d blocks)) m = (Ok r, m).
Proof.
  intros Hblocks.
  destruct (nodeList_renders _ blocks block_renders Hblocks m) as [rs Hrs].
  unfold Article_contents. fold render.
  unfold render, render_list in *. rewrite nodeToReactComponent_eq. simpl.
  unfold mbind, M_bind. rewrite Hrs. unfold options_renderNode. simpl.
  destruct (defaultNodeRenderers BLOCKS.DOCUMENT) as [h|] eqn:Hdoc.
  - apply (document_renderer_returns h eq_refl).
  - eauto.
Qed.

End Renders.

(** The scenario of the specification renders as four nodes: the heading
    with its anchor, the prose, the code block and the video, whose label is
    dropped. *)
Example scenario_renders (m : gmap jsstring CategoryLink.t) :
  Article_contents Sample.format Sample.defaultNodeRenderers
    Sample.defaultMarkRenderers (Some Sample.scenario) m
  = (Ok (RArray
           [RElement "Typography"
              [("id", VStr (anchor (js "Intro"))); ("variant", VStr (js "h2"));
               ("sx", VObj [("marginTop", VStr (js "32px"));
                            ("marginBottom", VStr (js "16px"))])]
              [RArray [RText (js "Intro")]];
            RElement "Text" [] [RArray [RText (js "Hello")]];
            RElement "div" []
              [RElement "pre" []
                 [RElement "code" []
                    [RArray [RElement "code" [] [RText (js "code")]]]]];
            video_embed (VStr (js "xyz"))]), m).
Proof. reflexivity. Qed.

(** A mark whose type names a property of [Object.prototype] is not among
    the marks of these documents: the library calls what it finds under the
    type. *)
Example proto_mark_throws (m : gmap jsstring CategoryLink.t) :
  Article_contents Sample.format Sample.defaultNodeRenderers
    Sample.defaultMarkRenderers
    (Some (Sample.document
             [element BLOCKS.PARAGRAPH [] [text (js "x") [Mark "__proto__"]]]))
    m
  = (Throw TypeError, m).
Proof. reflexivity. Qed.

Example scenario_toc :
  TableOfContents (Some Sample.scenario)
  = [TocEntry 2 (js "Intro") (anchor (js "Intro"))].
Proof. reflexivity. Qed.

(** * Further properties *)

(** ** The category map of [Article] *)

(** Of the categories that carry the same id the last one is the one the
    map holds, and an id that no category carries is no key of it. *)
Theorem categoryMap_lookup_last (categories : list CategoryLink.t)
    (k : jsstring) :
  categoryMap categories !! k
  = last (filter (fun c => CategoryLink.id c = k) categories).
Proof.
  induction categories as [|c cs IH] using rev_ind; [apply lookup_empty|].
  rewrite categoryMap_snoc, filter_app.
  destruct (decide (CategoryLink.id c = k)) as [Hk|Hk].
  - rewrite Hk, lookup_insert_eq. rewrite filter_cons_True by done.
    rewrite filter_nil. by rewrite last_snoc.
  - rewrite lookup_insert_ne by done. rewrite filter_cons_False by done.
    rewrite filter_nil, app_nil_r. exact IH.
Qed.

Lemma categoryMap_fresh (categories : list CategoryLink.t)
    (c : CategoryLink.t) :
  NoDup (map CategoryLink.id (categories ++ [c])) ->
  NoDup (map CategoryLink.id categories)
  /\ categoryMap categories !! CategoryLink.id c = None.
Proof.
  rewrite map_app. intros (Hcs & Hfresh & _)%NoDup_app. split; [done|].
  apply categoryMap_absent. apply Forall_forall. intros c' Hc' Heq.
  apply (Hfresh (CategoryLink.id c')).
  - apply list_elem_of_fmap. exists c'. by split.
  - rewrite Heq. simpl. by apply list_elem_of_singleton.
Qed.

Lemma categoryMap_lookup_elem (categories : list CategoryLink.t)
    (c : CategoryLink.t) :
  NoDup (map CategoryLink.id categories) ->
  c ∈ categories ->
  categoryMap categories !! CategoryLink.id c = Some c.
Proof.
  induction categories as [|c0 cs IH] using rev_ind; intros Hnd.
  - by intros Hc%elem_of_nil.
  - apply categoryMap_fresh in Hnd as [Hcs Hnew]. rewrite categoryMap_snoc.
    intros [Hc|Hc%list_elem_of_singleton]%elem_of_app.
    + destruct (decide (CategoryLink.id c0 = CategoryLink.id c)) as [Heq|Hne].
      { rewrite Heq, (IH Hcs Hc) in Hnew. discriminate. }
      rewrite lookup_insert_ne by done. by apply IH.
    + subst c. by rewrite lookup_insert_eq.
Qed.

(** When the ids are distinct the map holds every category under its id,
    and as many entries as there are categories. *)
Theorem categoryMap_distinct_ids (categories : list CategoryLink.t) :
  NoDup (map CategoryLink.id categories) ->
  (forall c, c ∈ categories ->
     categoryMap categories !! CategoryLink.id c = Some c)
  /\ size (categoryMap categories) = length categories.
Proof.
  intros Hnd. split; [intros c; by apply categoryMap_lookup_elem|].
  induction categories as [|c cs IH] using rev_ind; [reflexivity|].
  apply categoryMap_fresh in Hnd as [Hcs Hnew].
  rewrite categoryMap_snoc, map_size_insert_None by done.
  rewrite length_app, (IH Hcs). simpl. lia.
Qed.

Lemma categoryMap_distinct_ids_witness :
  (forall c, c ∈ PageSample.links ->
     categoryMap PageSample.links !! CategoryLink.id c = Some c)
  /\ size (categoryMap PageSample.links) = 2%nat.
Proof.
  apply (categoryMap_distinct_ids PageSample.links).
  apply (bool_decide_unpack (NoDup (map CategoryLink.id PageSample.links))).
  vm_compute. reflexivity.
Defined.

(** ** [getStaticProps] and [getStaticPaths] *)

(** What [find] returns is the first element that passes the test. *)
Lemma find_first {A} (f : A -> bool) (l : list A) (x : A) :
  find f l = Some x ->
  exists before after,
    l = before ++ x :: after /\ f x = true
    /\ Forall (fun y => f y = false) before.
Proof.
  induction l as [|y l IH]; [done|]. simpl.
  destruct (f y) eqn:Hy.
  - intros [= <-]. exists [], l. by repeat split.
  - intros Hx. destruct (IH Hx) as (before & after & -> & Hfx & Hbefore).
    exists (y :: before), after. repeat split; [done|]. by constructor.
Qed.

Section PageProperties.

Variable categoryEntries : list (Contentful.Entry CategoryModel.t).
Variable articleEntries :
  jsstring -> jsstring -> list (Contentful.Entry ArticleModel.t).
Variable allArticleEntries : list (Contentful.Entry ArticleModel.t).
Variable withLinksCountToCategory :
  list (Contentful.Entry CategoryModel.t) -> list WithLinksCountCategory.t.
Variable siteTitle : jsstring.
Variable format : jsvalue -> outcome jsstring.

#[local] Abbreviation props_of :=
  (getStaticProps categoryEntries articleEntries withLinksCountToCategory).

(** The page is not found in exactly four cases: no params, an empty path,
    no category of the store with the slug asked for, no article in the
    answer of the store. *)
Theorem getStaticProps_notFound (params : option Params.t) :
  props_of params = NotFound <->
  match params with
  | None => True
  | Some params =>
      Params.path params = []
      \/ (forall e, e ∈ categoryEntries ->
            CategoryModel.slug (Contentful.fields e)
            <> Params.category params)
      \/ articleEntries (Params.path params) (Params.category params) = []
  end.
Proof.
  unfold getStaticProps. destruct params as [params|]; [|done].
  case_bool_decide as Hpath.
  - destruct (find _ categoryEntries) as [c|] eqn:Hfind.
    + destruct (articleEntries _ _) as [|item items] eqn:Hitems; simpl.
      * split; [auto|done].
      * split; [done|]. intros [?|[Hnone|?]]; [done| |done].
        apply find_some in Hfind as [Hin Hc].
        apply bool_decide_eq_true in Hc.
        destruct (Hnone c); [by apply list_elem_of_In|done].
    + split; [|by destruct (head _)]. intros _. right. left.
      intros e He Hslug. apply list_elem_of_In in He.
      pose proof (find_none _ _ Hfind e He) as Hf. simpl in Hf.
      by apply bool_decide_eq_false in Hf.
  - split; [|done]. intros _. left.
    by destruct (decide (Params.path params = [])).
Qed.

(** When the page is found its path is built from the two params, the
    category is the first one of the store with the slug asked for, the
    article is the first item of the answer, and the links come from all
    categories. *)
Theorem getStaticProps_props (params : option Params.t)
    (props : ContainerProps.t) :
  props_of params = Props props ->
  exists ps before after,
    params = Some ps
    /\ Params.path ps <> []
    /\ ContainerProps.path props
       = js "/" ++ Params.category ps ++ js "/" ++ Params.path ps
    /\ categoryEntries = before ++ ContainerProps.category props :: after
    /\ CategoryModel.slug (Contentful.fields (ContainerProps.category props))
       = Params.category ps
    /\ Forall (fun e => CategoryModel.slug (Contentful.fields e)
                        <> Params.category ps) before
    /\ head (articleEntries (Params.path ps) (Params.category ps))
       = Some (ContainerProps.article props)
    /\ ContainerProps.withLinksCountCategories props
       = withLinksCountToCategory categoryEntries.
Proof.
  unfold getStaticProps. destruct params as [ps|]; [|done].
  case_bool_decide as Hpath; [|done].
  destruct (head _) as [item|] eqn:Hitem; [|done].
  destruct (find _ categoryEntries) as [c|] eqn:Hfind; [|done].
  intros [= <-]. apply find_first in Hfind
    as (before & after & Hsplit & Hc & Hbefore).
  exists ps, before, after. simpl. repeat split; try done.
  - by apply bool_decide_eq_true in Hc.
  - eapply Forall_impl; [exact Hbefore|]. intros e He. simpl in He.
    by apply bool_decide_eq_false in He.
Qed.

(** Every path that [getStaticPaths] lists and that is not empty is found
    by [getStaticProps], under the path made of its two parts, when the
    store answers the query for an article it has listed with at least one
    item and knows the category of every article. *)
Theorem static_paths_are_found (params : Params.t) :
  (forall a, a ∈ allArticleEntries ->
     articleEntries (ArticleModel.slug (Contentful.fields a))
       (category_slug a) <> []) ->
  (forall a, a ∈ allArticleEntries ->
     exists c, c ∈ categoryEntries
               /\ CategoryModel.slug (Contentful.fields c) = category_slug a) ->
  params ∈ paths (getStaticPaths allArticleEntries) ->
  Params.path params <> [] ->
  exists props,
    props_of (Some params) = Props props
    /\ ContainerProps.path props
       = js "/" ++ Params.category params ++ js "/" ++ Params.path params.
Proof.
  intros Harticle Hcategory Hin Hpath. simpl in Hin.
  apply list_elem_of_fmap in Hin as (a & -> & Ha). simpl in *.
  unfold getStaticProps. simpl. rewrite bool_decide_true by done.
  fold (category_slug a).
  destruct (articleEntries _ (category_slug a)) as [|item items] eqn:Hitems;
    [by destruct (Harticle a Ha)|].
  destruct (find _ categoryEntries) as [c|] eqn:Hfind; simpl.
  - eexists. split; reflexivity.
  - destruct (Hcategory a Ha) as (c & Hc & Hslug).
    apply list_elem_of_In in Hc.
    pose proof (find_none _ _ Hfind c Hc) as Hf. simpl in Hf.
    by apply bool_decide_eq_false in Hf.
Qed.

(** An article with an empty slug is listed by [getStaticPaths], and its
    page is not found, whatever the store answers. *)
Theorem empty_slug_not_found (a : Contentful.Entry ArticleModel.t) :
  a ∈ allArticleEntries ->
  ArticleModel.slug (Contentful.fields a) = [] ->
  Params.Make (category_slug a) [] ∈ paths (getStaticPaths allArticleEntries)
  /\ props_of (Some (Params.Make (category_slug a) [])) = NotFound.
Proof.
  intros Ha Hslug. split.
  - simpl. apply list_elem_of_fmap. exists a. split; [|done].
    fold (category_slug a). by rewrite Hslug.
  - reflexivity.
Qed.

End PageProperties.

Lemma getStaticProps_props_witness :
  exists ps before after,
    Some (Params.Make (js "life") (js "bar")) = Some ps
    /\ Params.path ps <> []
    /\ js "/life/bar" = js "/" ++ Params.category ps ++ js "/" ++ Params.path ps
    /\ PageSample.categoryEntries = before ++ PageSample.life :: after
    /\ CategoryModel.slug (Contentful.fields PageSample.life)
       = Params.category ps
    /\ Forall (fun e => CategoryModel.slug (Contentful.fields e)
                        <> Params.category ps) before
    /\ head (PageSample.articleEntries (Params.path ps) (Params.category ps))
       = Some PageSample.bar
    /\ PageSample.withLinksCountToCategory PageSample.categoryEntries
       = PageSample.withLinksCountToCategory PageSample.categoryEntries.
Proof.
  exact (getStaticProps_props PageSample.categoryEntries
           PageSample.articleEntries PageSample.withLinksCountToCategory
           (Some (Params.Make (js "life") (js "bar")))
           (ContainerProps.Make (js "/life/bar") PageSample.life
              PageSample.bar
              (PageSample.withLinksCountToCategory PageSample.categoryEntries))
           eq_refl).
Defined.

Lemma static_paths_are_found_witness :
  exists props,
    getStaticProps PageSample.categoryEntries PageSample.articleEntries
      PageSample.withLinksCountToCategory
      (Some (Params.Make (js "tech") (js "foo"))) = Props props
    /\ ContainerProps.path props = js "/" ++ js "tech" ++ js "/" ++ js "foo".
Proof.
  apply (static_paths_are_found PageSample.categoryEntries
           PageSample.articleEntries PageSample.allArticleEntries
           PageSample.withLinksCountToCategory
           (Params.Make (js "tech") (js "foo"))).
  - intros a Ha. unfold PageSample.allArticleEntries in Ha.
    repeat (apply elem_of_cons in Ha as [->|Ha]); [..|by apply elem_of_nil in Ha];
      vm_compute; discriminate.
  - intros a Ha. unfold PageSample.allArticleEntries in Ha.
    repeat (apply elem_of_cons in Ha as [->|Ha]); [..|by apply elem_of_nil in Ha].
    + exists PageSample.tech. split; [|reflexivity]. apply elem_of_cons. by left.
    + exists PageSample.life. split; [|reflexivity].
      apply elem_of_cons. right. apply elem_of_cons. by left.
  - apply elem_of_cons. by left.
  - discriminate.
Defined.

Lemma empty_slug_not_found_witness :
  Params.Make (js "life") []
    ∈ paths (getStaticPaths [PageSample.foo; PageSample.draft])
  /\ getStaticProps PageSample.categoryEntries PageSample.articleEntries
       PageSample.withLinksCountToCategory (Some (Params.Make (js "life") []))
     = NotFound.
Proof.
  apply (empty_slug_not_found PageSample.categoryEntries
           PageSample.articleEntries [PageSample.foo; PageSample.draft]
           PageSample.withLinksCountToCategory PageSample.draft).
  - apply elem_of_cons. right. apply elem_of_cons. by left.
  - reflexivity.
Defined.

(** ** [ArticleContainer] *)

Lemma get_path_throw (e : exn) (ks : list string) :
  foldl (fun acc k => v ← acc; get v k) (Throw e) ks = Throw e.
Proof.
  induction ks as [|k ks IH] using rev_ind; [done|].
  rewrite foldl_app. simpl. by rewrite IH.
Qed.

Lemma get_path_app (o : jsvalue) (ks ks' : list string) :
  get_path o (ks ++ ks') = (v ← get_path o ks; get_path v ks').
Proof.
  unfold get_path. rewrite foldl_app.
  destruct (foldl _ (Ok o) ks) as [v|e]; [reflexivity|].
  apply get_path_throw.
Qed.

Lemma get_path_cons (o : jsvalue) (k : string) (ks : list string) :
  get_path o (k :: ks) = (v ← get o k; get_path v ks).
Proof. apply (get_path_app o [k] ks). Qed.

Lemma get_path_present (props : list (string * jsvalue)) (k : string)
    (ks : list string) (v : jsvalue) :
  assoc k props = Some v ->
  get_path (VObj props) (k :: ks) = get_path v ks.
Proof. intros H. rewrite get_path_cons. simpl. by rewrite H. Qed.

Lemma get_path_missing (props : list (string * jsvalue)) (k : string)
    (ks : list string) :
  assoc k props = None ->
  get_path (VObj props) (k :: ks) = get_path VUndefined ks.
Proof. intros H. rewrite get_path_cons. simpl. by rewrite H. Qed.

(** The bread crumbs of a page that [getStaticProps] has found: the site,
    the category, and as the third link the category followed by the path
    of the page, which holds the category once more. *)
Theorem breadCrumbs_of_found_page
    (categoryEntries : list (Contentful.Entry CategoryModel.t))
    (articleEntries :
       jsstring -> jsstring -> list (Contentful.Entry ArticleModel.t))
    (withLinksCountToCategory :
       list (Contentful.Entry CategoryModel.t) -> list WithLinksCountCategory.t)
    (siteTitle : jsstring) (format : jsvalue -> outcome jsstring)
    (params : Params.t) (props : ContainerProps.t) (page : ArticleProps.t) :
  getStaticProps categoryEntries articleEntries withLinksCountToCategory
    (Some params) = Props props ->
  ArticleContainer siteTitle format props = Ok page ->
  map BreadCrumbsModel.href (ArticleProps.breadCrumbs page)
  = [js "/";
     js "/" ++ Params.category params;
     js "/" ++ Params.category params ++ js "//" ++ Params.category params
       ++ js "/" ++ Params.path params].
Proof.
  unfold getStaticProps. case_bool_decide; [|done].
  destruct (head _) as [item|]; [|done].
  destruct (find _ categoryEntries) as [c|] eqn:Hfind; [|done].
  apply find_some in Hfind as [_ Hc%bool_decide_eq_true].
  intros [= <-]. unfold ArticleContainer. simpl.
  destruct (format _); [|done]. simpl.
  destruct (thumbnail_url _); [|done]. simpl.
  destruct (thumbnail_dimension _ "width"); [|done]. simpl.
  destruct (thumbnail_dimension _ "height"); [|done]. simpl.
  intros [= <-]. simpl. by rewrite Hc.
Qed.

Lemma breadCrumbs_of_found_page_witness :
  map BreadCrumbsModel.href
    (breadCrumbs PageSample.siteTitle (js "/tech/foo") PageSample.tech
       PageSample.foo)
  = [js "/"; js "/" ++ js "tech";
     js "/" ++ js "tech" ++ js "//" ++ js "tech" ++ js "/" ++ js "foo"].
Proof.
  exact (breadCrumbs_of_found_page PageSample.categoryEntries
           PageSample.articleEntries PageSample.withLinksCountToCategory
           PageSample.siteTitle Sample.format
           (Params.Make (js "tech") (js "foo")) _
           (ArticleProps.Make (js "/tech/foo") (js "Foo")
              (js "2022-01-02T03:04:05.000Z")
              (breadCrumbs PageSample.siteTitle (js "/tech/foo")
                 PageSample.tech PageSample.foo)
              (VStr (js "//images.ctfassets.net/cover.png"))
              (VNum 1200) (VNum 630) None PageSample.links)
           eq_refl eq_refl).
Defined.

(** An article without a thumbnail: when its date can be formatted, the
    container returns the props and [Article] shows no image. *)
Theorem page_without_thumbnail (siteTitle : jsstring)
    (format : jsvalue -> outcome jsstring) (props : ContainerProps.t)
    (date : jsstring) :
  ArticleModel.thumbnail (Contentful.fields (ContainerProps.article props))
    = VUndefined ->
  format (VStr (Contentful.createdAt
                  (Contentful.sys (ContainerProps.article props)))) = Ok date ->
  exists page,
    ArticleContainer siteTitle format props = Ok page
    /\ ArticleProps.imageSrc page = VUndefined
    /\ Article_thumbnail page = RNull.
Proof.
  intros Hthumb Hdate. unfold ArticleContainer. rewrite Hthumb, Hdate.
  eexists. repeat split.
Qed.

(** A thumbnail whose asset has no file: the URL of the image reads as
    [undefined], but reading the dimensions throws, and with them the
    container. *)
Theorem thumbnail_without_file_throws (siteTitle : jsstring)
    (format : jsvalue -> outcome jsstring) (props : ContainerProps.t)
    (date : jsstring) (asset fields : list (string * jsvalue)) :
  ArticleModel.thumbnail (Contentful.fields (ContainerProps.article props))
    = VObj asset ->
  assoc "fields" asset = Some (VObj fields) ->
  assoc "file" fields = None ->
  format (VStr (Contentful.createdAt
                  (Contentful.sys (ContainerProps.article props)))) = Ok date ->
  thumbnail_url (VObj asset) = Ok VUndefined
  /\ ArticleContainer siteTitle format props = Throw TypeError.
Proof.
  intros Hthumb Hfields Hfile Hdate.
  assert (Hurl : thumbnail_url (VObj asset) = Ok VUndefined).
  { unfold thumbnail_url. simpl.
    rewrite (get_path_present _ _ _ _ Hfields).
    by rewrite (get_path_missing _ _ _ Hfile). }
  split; [done|].
  unfold ArticleContainer. rewrite Hthumb, Hdate, Hurl. simpl.
  unfold thumbnail_dimension. simpl.
  rewrite (get_path_present _ _ _ _ Hfields).
  by rewrite (get_path_missing _ _ _ Hfile).
Qed.

(** A thumbnail with the file of an image: [Article] shows it, with the URL
    of the file after ["https:"] and the dimensions of the image. *)
Theorem page_with_thumbnail (siteTitle : jsstring)
    (format : jsvalue -> outcome jsstring) (props : ContainerProps.t)
    (date url : jsstring) (asset image : list (string * jsvalue)) :
  ArticleModel.thumbnail (Contentful.fields (ContainerProps.article props))
    = VObj asset ->
  get_path (VObj asset) ["fields"; "file"; "url"] = Ok (VStr url) ->
  get_path (VObj asset) ["fields"; "file"; "details"; "image"]
    = Ok (VObj image) ->
  format (VStr (Contentful.createdAt
                  (Contentful.sys (ContainerProps.article props)))) = Ok date ->
  exists page,
    ArticleContainer siteTitle format props = Ok page
    /\ Article_thumbnail page
       = RElement "Box" []
           [RElement "Image"
              [("src", VStr (js "https:" ++ url));
               ("alt", VStr (js "thumbnail"));
               ("width", default VUndefined (assoc "width" image));
               ("height", default VUndefined (assoc "height" image))] []].
Proof.
  intros Hthumb Hurl Himage Hdate.
  assert (Hsrc : thumbnail_url (VObj asset) = Ok (VStr url)).
  { unfold thumbnail_url. simpl.
    change ["fields"; "file"; "url"] with (["fields"; "file"] ++ ["url"]) in Hurl.
    rewrite get_path_app in Hurl.
    destruct (get_path (VObj asset) ["fields"; "file"]) as [file|]; [|done].
    simpl in *. by destruct file. }
  assert (Hdim : forall k, thumbnail_dimension (VObj asset) k
                           = Ok (default VUndefined (assoc k image))).
  { intros k. unfold thumbnail_dimension. simpl. by rewrite Himage. }
  unfold ArticleContainer, mbind, outcome_bind.
  rewrite Hthumb, Hdate, Hsrc, !Hdim. eexists. split; reflexivity.
Qed.

Lemma page_without_thumbnail_witness :
  exists page,
    ArticleContainer PageSample.siteTitle Sample.format
      (PageSample.props PageSample.life PageSample.bar) = Ok page
    /\ ArticleProps.imageSrc page = VUndefined
    /\ Article_thumbnail page = RNull.
Proof.
  exact (page_without_thumbnail PageSample.siteTitle Sample.format
           (PageSample.props PageSample.life PageSample.bar)
           (js "2022-01-02T03:04:05.000Z") eq_refl eq_refl).
Defined.

Lemma thumbnail_without_file_throws_witness :
  thumbnail_url PageSample.picture_without_file = Ok VUndefined
  /\ ArticleContainer PageSample.siteTitle Sample.format
       (PageSample.props PageSample.life PageSample.draft) = Throw TypeError.
Proof.
  exact (thumbnail_without_file_throws PageSample.siteTitle Sample.format
           (PageSample.props PageSample.life PageSample.draft)
           (js "2022-01-02T03:04:05.000Z")
           [("fields", VObj [("title", VStr (js "Cover"))])]
           [("title", VStr (js "Cover"))] eq_refl eq_refl eq_refl eq_refl).
Defined.

Lemma page_with_thumbnail_witness :
  exists page,
    ArticleContainer PageSample.siteTitle Sample.format
      (PageSample.props PageSample.tech PageSample.foo) = Ok page
    /\ Article_thumbnail page
       = RElement "Box" []
           [RElement "Image"
              [("src", VStr (js "https:" ++ js "//images.ctfassets.net/cover.png"));
               ("alt", VStr (js "thumbnail"));
               ("width", VNum 1200); ("height", VNum 630)] []].
Proof.
  exact (page_with_thumbnail PageSample.siteTitle Sample.format
           (PageSample.props PageSample.tech PageSample.foo)
           (js "2022-01-02T03:04:05.000Z")
           (js "//images.ctfassets.net/cover.png") _
           [("width", VNum 1200); ("height", VNum 630)]
           eq_refl eq_refl eq_refl eq_refl).
Defined.

(** ** Links between the pages *)

Lemma entry_handlers_with_link (format : jsvalue -> outcome jsstring)
    (n : node) (children : react) (m : gmap jsstring CategoryLink.t)
    (title : jsvalue) (categoryId slug : jsstring) (link : CategoryLink.t) :
  get_path (VObj (data n)) ["target"; "fields"; "title"] = Ok title ->
  get_path (VObj (data n)) ["target"; "fields"; "category"; "sys"; "id"]
    = Ok (VStr categoryId) ->
  get_path (VObj (data n)) ["target"; "fields"; "slug"] = Ok (VStr slug) ->
  m !! categoryId = Some link ->
  renderNode_INLINE_EMBEDDED_ENTRY n children m
    = (Ok (RElement "a"
             [("href", VStr (CategoryLink.path link ++ js "/" ++ slug))]
             [RValue (nullish title (VStr []))]), m)
  /\ (forall (createdAt : jsvalue) (date : jsstring),
        get_path (VObj (data n)) ["target"; "sys"; "createdAt"]
          = Ok createdAt ->
        format createdAt = Ok date ->
        renderNode_EMBEDDED_ENTRY format n children m
          = (Ok (RElement "SmallArticleCard"
                   [("title", nullish title (VStr []));
                    ("href", VStr (CategoryLink.path link ++ js "/" ++ slug));
                    ("date", VStr date)] []), m)).
Proof.
  intros Htitle Hid Hslug Hlink.
  unfold renderNode_INLINE_EMBEDDED_ENTRY, renderNode_EMBEDDED_ENTRY.
  unfold mbind, M_bind, lift, categoryMap_path.
  rewrite Htitle, Hid, Hslug. simpl to_string. rewrite Hlink.
  split; [reflexivity|]. by intros createdAt date -> ->.
Qed.

Lemma categoryLinks_elem (links : list WithLinksCountCategory.t)
    (x : WithLinksCountCategory.t) :
  x ∈ links ->
  CategoryLink.Make
    (CategoryModel.name (Contentful.fields (WithLinksCountCategory.category x)))
    (WithLinksCountCategory.count x)
    (js "/" ++ CategoryModel.slug
                 (Contentful.fields (WithLinksCountCategory.category x)))
    (Contentful.id (Contentful.sys (WithLinksCountCategory.category x)))
  ∈ categoryLinks links.
Proof.
  intros Hx. unfold categoryLinks. apply list_elem_of_fmap. by exists x.
Qed.

Lemma categoryLinks_ids (links : list WithLinksCountCategory.t) :
  map CategoryLink.id (categoryLinks links)
  = map (fun x => Contentful.id
                    (Contentful.sys (WithLinksCountCategory.category x)))
      links.
Proof. unfold categoryLinks. by rewrite map_map. Qed.

Lemma ArticleContainer_categories (siteTitle : jsstring)
    (format : jsvalue -> outcome jsstring) (props : ContainerProps.t)
    (page : ArticleProps.t) :
  ArticleContainer siteTitle format props = Ok page ->
  ArticleProps.categories page
  = categoryLinks (ContainerProps.withLinksCountCategories props).
Proof.
  unfold ArticleContainer, mbind, outcome_bind.
  destruct (format _); [|done]. destruct (thumbnail_url _); [|done].
  destruct (thumbnail_dimension _ "width"); [|done].
  destruct (thumbnail_dimension _ "height"); [|done].
  by intros [= <-].
Qed.

(** From the store to the link: when the categories handed to the container
    have distinct ids, an embedded entry whose category is one of them links,
    in the page that [Article] renders, to the slug of that category followed
    by its own slug, and this is the path under which [getStaticProps] finds
    the page with these two params. *)
Theorem embedded_entry_links_to_page (siteTitle : jsstring)
    (format : jsvalue -> outcome jsstring) (props : ContainerProps.t)
    (page : ArticleProps.t) (x : WithLinksCountCategory.t)
    (n : node) (children : react) (title : jsvalue) (slug : jsstring) :
  ArticleContainer siteTitle format props = Ok page ->
  NoDup (map (fun x => Contentful.id
                         (Contentful.sys (WithLinksCountCategory.category x)))
           (ContainerProps.withLinksCountCategories props)) ->
  x ∈ ContainerProps.withLinksCountCategories props ->
  get_path (VObj (data n)) ["target"; "fields"; "title"] = Ok title ->
  get_path (VObj (data n)) ["target"; "fields"; "category"; "sys"; "id"]
    = Ok (VStr (Contentful.id
                  (Contentful.sys (WithLinksCountCategory.category x)))) ->
  get_path (VObj (data n)) ["target"; "fields"; "slug"] = Ok (VStr slug) ->
  let category_slug :=
    CategoryModel.slug
      (Contentful.fields (WithLinksCountCategory.category x)) in
  let href := js "/" ++ category_slug ++ js "/" ++ slug in
  let m := Article_categoryMap page in
  renderNode_INLINE_EMBEDDED_ENTRY n children m
    = (Ok (RElement "a" [("href", VStr href)]
             [RValue (nullish title (VStr []))]), m)
  /\ (forall (createdAt : jsvalue) (date : jsstring),
        get_path (VObj (data n)) ["target"; "sys"; "createdAt"]
          = Ok createdAt ->
        format createdAt = Ok date ->
        renderNode_EMBEDDED_ENTRY format n children m
          = (Ok (RElement "SmallArticleCard"
                   [("title", nullish title (VStr []));
                    ("href", VStr href); ("date", VStr date)] []), m))
  /\ (forall categoryEntries articleEntries withLinksCountToCategory found,
        getStaticProps categoryEntries articleEntries
          withLinksCountToCategory (Some (Params.Make category_slug slug))
          = Props found ->
        ContainerProps.path found = href).
Proof.
  intros Hpage Hnd Hx Htitle Hid Hslug category_slug href m.
  unfold m, Article_categoryMap.
  rewrite (ArticleContainer_categories _ _ _ _ Hpage).
  rewrite <- categoryLinks_ids in Hnd.
  pose proof (categoryMap_lookup_elem _ _ Hnd (categoryLinks_elem _ _ Hx))
    as Hlink. simpl in Hlink.
  destruct (entry_handlers_with_link format n children _ title _ slug _
              Htitle Hid Hslug Hlink) as [Hinline Hblock].
  split; [exact Hinline|]. split; [exact Hblock|].
  intros categoryEntries articleEntries withLinksCountToCategory found.
  unfold getStaticProps. simpl. case_bool_decide; [|done].
  destruct (head _); [|done]. destruct (find _ categoryEntries); [|done].
  by intros [= <-].
Qed.

Lemma embedded_entry_links_to_page_witness :
  exists page,
    ArticleContainer PageSample.siteTitle Sample.format
      (PageSample.props PageSample.life PageSample.bar) = Ok page
    /\ renderNode_INLINE_EMBEDDED_ENTRY Sample.inline_entry RNull
         (Article_categoryMap page)
       = (Ok (RElement "a"
                [("href", VStr (js "/" ++ js "tech" ++ js "/" ++ js "foo"))]
                [RValue (VStr (js "Other article"))]),
          Article_categoryMap page).
Proof.
  eexists. split; [reflexivity|].
  apply (embedded_entry_links_to_page PageSample.siteTitle Sample.format
           (PageSample.props PageSample.life PageSample.bar) _
           (WithLinksCountCategory.Make PageSample.tech 1)
           Sample.inline_entry RNull (VStr (js "Other article")) (js "foo")).
  - reflexivity.
  - apply (bool_decide_unpack
             (NoDup (map (fun x => Contentful.id
                                     (Contentful.sys
                                        (WithLinksCountCategory.category x)))
                       (PageSample.withLinksCountToCategory
                          PageSample.categoryEntries)))).
    vm_compute. reflexivity.
  - apply elem_of_cons. by left.
  - reflexivity.
  - reflexivity.
  - reflexivity.
Defined.

(** ** What the handlers do with entries and assets that are not complete *)

(** A target without fields, as an entry or asset that the store did not
    resolve: the two entry handlers and the asset handler throw a
    [TypeError]. *)
Theorem target_without_fields_throws (format : jsvalue -> outcome jsstring)
    (n : node) (children : react) (m : gmap jsstring CategoryLink.t) :
  get_path (VObj (data n)) ["target"; "fields"] = Ok VUndefined ->
  renderNode_INLINE_EMBEDDED_ENTRY n children m = (Throw TypeError, m)
  /\ renderNode_EMBEDDED_ENTRY format n children m = (Throw TypeError, m)
  /\ renderNode_EMBEDDED_ASSET n children = Throw TypeError.
Proof.
  intros Hfields.
  assert (Htitle : get_path (VObj (data n)) ["target"; "fields"; "title"]
                   = Throw TypeError).
  { change ["target"; "fields"; "title"]
      with (["target"; "fields"] ++ ["title"]).
    by rewrite get_path_app, Hfields. }
  unfold renderNode_INLINE_EMBEDDED_ENTRY, renderNode_EMBEDDED_ENTRY,
    renderNode_EMBEDDED_ASSET.
  unfold mbind at 1 3, M_bind, lift. rewrite Htitle, Hfields.
  repeat split.
Qed.

Lemma target_without_fields_throws_witness :
  renderNode_INLINE_EMBEDDED_ENTRY
    (element INLINES.EMBEDDED_ENTRY PageSample.unresolved []) RNull ∅
  = (Throw TypeError, ∅)
  /\ renderNode_EMBEDDED_ENTRY Sample.format
       (element INLINES.EMBEDDED_ENTRY PageSample.unresolved []) RNull ∅
     = (Throw TypeError, ∅)
  /\ renderNode_EMBEDDED_ASSET
       (element INLINES.EMBEDDED_ENTRY PageSample.unresolved []) RNull
     = Throw TypeError.
Proof.
  exact (target_without_fields_throws Sample.format
           (element INLINES.EMBEDDED_ENTRY PageSample.unresolved []) RNull ∅
           eq_refl).
Defined.

(** An asset that is no image: the URL of its file can be read, the
    dimensions cannot, and the asset handler throws a [TypeError]. *)
Theorem asset_without_image_throws (n : node) (children : react)
    (fields url : jsvalue) :
  get_path (VObj (data n)) ["target"; "fields"] = Ok fields ->
  get_path fields ["file"; "url"] = Ok url ->
  get_path fields ["file"; "details"; "image"] = Ok VUndefined ->
  renderNode_EMBEDDED_ASSET n children = Throw TypeError.
Proof.
  intros Hfields Hurl Himage.
  assert (Hwidth : get_path fields ["file"; "details"; "image"; "width"]
                   = Throw TypeError).
  { change ["file"; "details"; "image"; "width"]
      with (["file"; "details"; "image"] ++ ["width"]).
    by rewrite get_path_app, Himage. }
  unfold renderNode_EMBEDDED_ASSET, mbind, outcome_bind.
  by rewrite Hfields, Hurl, Hwidth.
Qed.

Lemma asset_without_image_throws_witness :
  renderNode_EMBEDDED_ASSET
    (element BLOCKS.EMBEDDED_ASSET PageSample.pdf []) RNull
  = Throw TypeError.
Proof.
  exact (asset_without_image_throws
           (element BLOCKS.EMBEDDED_ASSET PageSample.pdf []) RNull
           _ (VStr (js "//assets.ctfassets.net/slides.pdf"))
           eq_refl eq_refl eq_refl).
Defined.

(** ** Nodes that the table renders *)

(** On a block or an inline node of the shapes of the document model, with
    a paragraph that starts with a text run or is empty and with strings
    for the URL of an asset and for the category id and slug of an entry,
    the table has a handler, and the handler returns without an exception
    and with the category map as it was. *)
Theorem table_handlers_return (format : jsvalue -> outcome jsstring)
    (known : string -> Prop) (n : node) (children : react)
    (m : gmap jsstring CategoryLink.t) :
  block_node format known n
  \/ (inline_node format known n /\ nodeType n <> "text") ->
  exists h r,
    renderNode format (nodeType n) = Some h /\ h n children m = (Ok r, m).
Proof.
  intros [Hblock|[Hinline Htext]].
  - destruct Hblock as [nt l d kids Hl _|d kids _ Hfirst|d Hasset|d Hentry].
    + simpl. revert Hl. unfold heading_level, renderNode.
      repeat match goal with
        | |- context [String.eqb nt ?s] =>
            destruct (String.eqb_spec nt s) as [->|_];
            [intros _; eexists; unfold lift;
             edestruct heading_total as [r Hr];
             exists r; split; [reflexivity|];
             unfold renderNode_HEADING_2, renderNode_HEADING_3,
               renderNode_HEADING_4, renderNode_HEADING_5,
               renderNode_HEADING_6;
             rewrite Hr; reflexivity|]
        end.
      discriminate.
    + destruct (paragraph_total known d kids children Hfirst) as [r Hr].
      eexists. exists r. split; [reflexivity|]. unfold lift. by rewrite Hr.
    + destruct (asset_total d (element BLOCKS.EMBEDDED_ASSET d []) children
                  Hasset eq_refl) as [r Hr].
      eexists. exists r. split; [reflexivity|]. unfold lift. by rewrite Hr.
    + destruct (block_entry_total format d
                  (element BLOCKS.EMBEDDED_ENTRY d []) children m Hentry
                  eq_refl) as [r Hr].
      eexists. exists r. split; [reflexivity|]. exact Hr.
  - destruct Hinline as [n [d ms v _]|d kids _|d Hentry].
    + done.
    + destruct (hyperlink_total (element INLINES.HYPERLINK d kids) children)
        as [r Hr].
      eexists. exists r. split; [reflexivity|]. unfold lift. by rewrite Hr.
    + destruct (inline_entry_total format d
                  (element INLINES.EMBEDDED_ENTRY d []) children m false
                  Hentry eq_refl) as [r Hr].
      eexists. exists r. split; [reflexivity|]. exact Hr.
Qed.

(** Text runs and lists of them, for the samples. *)
Ltac shape :=
  repeat first
    [ apply Forall_nil_2
    | apply Forall_cons_2
    | apply InlineText
    | apply TextNode
    | progress (unfold Sample.document_marks; simpl; tauto) ].

Lemma table_handlers_return_witness :
  exists h r,
    renderNode Sample.format (nodeType Sample.paragraph_prose) = Some h
    /\ h Sample.paragraph_prose RNull (categoryMap Sample.categories)
       = (Ok r, categoryMap Sample.categories).
Proof.
  apply (table_handlers_return Sample.format Sample.document_marks
           Sample.paragraph_prose RNull (categoryMap Sample.categories)).
  left. apply BlockParagraph.
  - shape.
  - intros c [= <-]. shape.
Defined.

Lemma document_renders_witness :
  exists r,
    Article_contents Sample.format Sample.defaultNodeRenderers
      Sample.defaultMarkRenderers
      (Some (element BLOCKS.DOCUMENT []
               [Sample.intro; Sample.paragraph_code;
                Sample.photo (js "A photo")]))
      (categoryMap Sample.categories)
    = (Ok r, categoryMap Sample.categories).
Proof.
  refine (document_renders Sample.format Sample.defaultNodeRenderers
            Sample.defaultMarkRenderers Sample.document_marks _ _ []
            [Sample.intro; Sample.paragraph_code;
             Sample.photo (js "A photo")]
            (categoryMap Sample.categories) _).
  - intros h [= <-] n c m. exists c. reflexivity.
  - intros t f Hknown. unfold Sample.defaultMarkRenderers.
    destruct (String.eqb t "code").
    + intros [= <-] value. eexists. reflexivity.
    + destruct (String.eqb_spec t "__proto__") as [->|_]; [|discriminate].
      destruct Hknown as [H|[H|[H|[H|[]]]]]; discriminate H.
  - constructor; [|constructor; [|constructor; [|constructor]]].
    + apply (BlockHeading Sample.format _ BLOCKS.HEADING_2 2); [reflexivity|].
      shape.
    + apply BlockParagraph; [shape|].
      intros c [= <-]. shape.
    + apply BlockAsset. eexists. split; [reflexivity|].
      split; [eexists; split; [reflexivity|by eexists]|].
      repeat split; eexists; reflexivity.
Defined.

Lemma classify_video_inv_witness :
  exists p c g,
    js "https://youtu.be/abc123" = p ++ js "/youtu" ++ c :: js "be/" ++ g
    /\ RegExp.dot c = true /\ g <> [] /\ one_line g
    /\ VStr (js "abc123") = VStr g.
Proof.
  exact (classify_video_inv (js "https://youtu.be/abc123")
           (VStr (js "abc123")) eq_refl).
Defined.

(** ** The form of an anchor *)

Lemma le_bytes_length (n : nat) (x : N) : length (MD5.le_bytes n x) = n.
Proof. unfold MD5.le_bytes. by rewrite length_map, length_seq. Qed.

Lemma le_bytes_bound (n : nat) (x : N) :
  Forall (fun b => b < 256) (MD5.le_bytes n x).
Proof.
  unfold MD5.le_bytes. apply Forall_forall. intros b Hb.
  apply list_elem_of_fmap in Hb as (i & -> & _). by apply N.mod_lt.
Qed.

Lemma hex_digit_lower (d : N) : d < 16 -> lower_hex (MD5.hex_digit d).
Proof.
  intros Hd. unfold lower_hex, MD5.hex_digit.
  destruct (N.ltb_spec d 10); lia.
Qed.

Lemma hex_form (bytes : list N) :
  Forall (fun b => b < 256) bytes ->
  length (MD5.hex bytes) = (2 * length bytes)%nat
  /\ Forall lower_hex (MD5.hex bytes).
Proof.
  induction 1 as [|b bytes Hb _ [IHlen IHhex]]; [by split|].
  unfold MD5.hex in *. simpl. split; [rewrite IHlen; lia|].
  constructor; [|constructor; [|exact IHhex]]; apply hex_digit_lower.
  - apply N.Div0.div_lt_upper_bound. lia.
  - by apply N.mod_lt.
Qed.

(** Whatever the text of a heading, its anchor is a string of 32 digits of
    lower-case hexadecimal. *)
Theorem anchor_form (s : jsstring) :
  length (anchor s) = 32%nat /\ Forall lower_hex (anchor s).
Proof.
  unfold anchor, MD5.digest.
  set (r := fold_left MD5.compress _ MD5.init).
  destruct (hex_form (MD5.le_bytes 4 (MD5.rA r) ++ MD5.le_bytes 4 (MD5.rB r)
                        ++ MD5.le_bytes 4 (MD5.rC r)
                        ++ MD5.le_bytes 4 (MD5.rD r))) as [Hlen Hhex].
  - repeat (apply Forall_app; split); apply le_bytes_bound.
  - split; [|exact Hhex]. rewrite Hlen, !length_app, !le_bytes_length.
    reflexivity.
Qed.
